(** * Metabase MCP server (src/index.ts): a shallow embedding

    The server translates MCP requests (resources/read, tools/call, ...)
    into HTTP calls against a Metabase instance.  The embedding follows
    the TypeScript source:

    - JavaScript values are an inductive type [value]; truthiness, string
      conversion, property access, object spread and rest destructuring
      are written out as the language defines them;
    - every [await this.axiosInstance.<verb>(...)] is one step of a
      state-and-exception monad [M]: it asks the external service (an
      arbitrary transition function [respond] on an abstract [World]) and
      appends the exchange to a [trace];
    - a JavaScript [throw] keeps the state reached so far, so an outcome
      is returned together with the state.

    Numbers are the integers (a JavaScript number holding an integer
    value), and a number is printed as its decimal numeral: that is
    what JavaScript prints for the safe integers, those of magnitude
    below 2^53, and the properties that assert the text of a printed
    number are stated for them ([safe_integer], [prints_exactly]).
    [JSON.stringify (., null, 2)] is a library function and is taken as
    a parameter [stringify]; logging is not modelled. *)

From Stdlib Require Import String Ascii List ZArith Bool Lia DecimalString.
Import ListNotations.

Set Warnings "-register-all".

Local Open Scope string_scope.
Local Open Scope list_scope.

Infix "^^" := String.append (at level 60, right associativity).

(** ** JavaScript values *)

Inductive value : Type :=
| Undefined
| Null
| Bool (b : bool)
| Num (z : Z)
| Str (s : string)
| Arr (items : list value)
| Obj (fields : list (string * value)).

Definition fields := list (string * value).

(** [!!v] *)
Definition truthy (v : value) : bool :=
  match v with
  | Undefined | Null => false
  | Bool b => b
  | Num z => negb (Z.eqb z 0)
  | Str s => negb (String.eqb s EmptyString)
  | Arr _ | Obj _ => true
  end.

(** [a || b] *)
Definition or_else (a b : value) : value := if truthy a then a else b.

(** a destructuring default, [{ k = d }]: used only when the property is
    [undefined] *)
Definition default_to (d v : value) : value :=
  match v with Undefined => d | _ => v end.

(** [v !== undefined] *)
Definition defined (v : value) : bool :=
  match v with Undefined => false | _ => true end.

Definition Z_to_string (z : Z) : string := NilZero.string_of_int (Z.to_int z).
Definition nat_to_string (n : nat) : string := NilZero.string_of_uint (Nat.to_uint n).

(** [String(v)], which is also what a template literal [`${v}`] inserts *)
Fixpoint toStr (v : value) : string :=
  match v with
  | Undefined => "undefined"
  | Null => "null"
  | Bool true => "true"
  | Bool false => "false"
  | Num z => Z_to_string z
  | Str s => s
  | Arr items =>
      (fix join (l : list value) : string :=
         match l with
         | [] => EmptyString
         | x :: r =>
             let sx := match x with Undefined | Null => EmptyString | _ => toStr x end in
             match r with [] => sx | _ => sx ^^ "," ^^ join r end
         end) items
  | Obj _ => "[object Object]"
  end.

(** [Number.isSafeInteger]: the integers every one of which is a double
    of its own, so that the digits JavaScript prints for it are those of
    its numeral.  Beyond them [String] prints the shortest digits that
    read back as the same double (2^60 ends in 847000, not 846976), and
    from 10^21 on an exponent, where [Z_to_string] prints every digit. *)
Definition safe_integer (z : Z) : Prop :=
  (Z.abs z < 9007199254740992)%Z.

(** the values that [toStr] prints as JavaScript does whatever they
    hold: the primitives, a number being a safe integer.  An array or
    an object is converted through its [toString] method, which the
    value itself may hide. *)
Definition prints_exactly (v : value) : bool :=
  match v with
  | Undefined | Null | Bool _ | Str _ => true
  | Num z => Z.ltb (Z.abs z) 9007199254740992
  | Arr _ | Obj _ => false
  end.

(** [a === b] for values that come from two different JSON documents:
    primitives compare by value, arrays and objects by reference (and
    two parsed documents never share one) *)
Definition strict_eq (a b : value) : bool :=
  match a, b with
  | Undefined, Undefined => true
  | Null, Null => true
  | Bool x, Bool y => Bool.eqb x y
  | Num x, Num y => Z.eqb x y
  | Str x, Str y => String.eqb x y
  | _, _ => false
  end.

(** *** Objects: insertion-ordered property lists *)

Fixpoint get (k : string) (fs : fields) : value :=
  match fs with
  | [] => Undefined
  | (k', v) :: r => if String.eqb k k' then v else get k r
  end.

(** [o.k = v]: overwrite in place, or append a new property *)
Fixpoint set (k : string) (v : value) (fs : fields) : fields :=
  match fs with
  | [] => [(k, v)]
  | (k', v') :: r => if String.eqb k k' then (k, v) :: r else (k', v') :: set k v r
  end.

(** the rest of a destructuring, [{ k, ...rest } = o] *)
Definition remove (k : string) (fs : fields) : fields :=
  filter (fun kv => negb (String.eqb k (fst kv))) fs.

(** [Object.keys(o)] *)
Definition keys (fs : fields) : list string := map fst fs.

Fixpoint index_from (n : nat) (l : list value) : fields :=
  match l with
  | [] => []
  | x :: r => (nat_to_string n, x) :: index_from (S n) r
  end.

Fixpoint chars (s : string) : list value :=
  match s with
  | EmptyString => []
  | String c r => Str (String c EmptyString) :: chars r
  end.

(** the own enumerable properties copied by [{ ...v }] *)
Definition spread (v : value) : fields :=
  match v with
  | Obj fs => fs
  | Arr l => index_from 0 l
  | Str s => index_from 0 (chars s)
  | _ => []
  end.

(** ** Errors and outcomes *)

Inductive ErrorCode : Type :=
| InternalError | InvalidRequest | InvalidParams | MethodNotFound.

(** the string each member of the enum stands for *)
Definition code_string (c : ErrorCode) : string :=
  match c with
  | InternalError => "internal_error"
  | InvalidRequest => "invalid_request"
  | InvalidParams => "invalid_params"
  | MethodNotFound => "method_not_found"
  end.

(** what the handlers read of an axios error: [error.response] (absent
    when no response arrived), its [data], and [error.message] *)
Record AxiosError : Type := mkAxiosError {
  err_response : option value;
  err_message : string
}.

Inductive exn : Type :=
| McpError (code : ErrorCode) (msg : string)
| AxiosErr (e : AxiosError)
| TypeError
| JsError (msg : string).

Inductive outcome (A : Type) : Type :=
| Ok (a : A)
| Throw (e : exn).
Arguments Ok {A} a.
Arguments Throw {A} e.

(** [axios.isAxiosError(e)] *)
Definition isAxiosError (e : exn) : bool :=
  match e with AxiosErr _ => true | _ => false end.

(** [v.k]: a TypeError on [null] and [undefined]; none of the property
    names the server reads exists on a primitive or on an array *)
Definition prop (v : value) (k : string) : outcome value :=
  match v with
  | Undefined | Null => Throw TypeError
  | Obj fs => Ok (get k fs)
  | _ => Ok Undefined
  end.

(** [v?.k] *)
Definition opt_prop (v : value) (k : string) : value :=
  match v with
  | Obj fs => get k fs
  | _ => Undefined
  end.

Definition obind {A B} (o : outcome A) (k : A -> outcome B) : outcome B :=
  match o with Ok a => k a | Throw e => Throw e end.

Fixpoint map_outcome (f : value -> outcome value) (l : list value)
  : outcome (list value) :=
  match l with
  | [] => Ok []
  | x :: r =>
      obind (f x) (fun y => obind (map_outcome f r) (fun ys => Ok (y :: ys)))
  end.

(** [v.map(f)], as the items of the new array: only an array has a
    [map] method *)
Definition js_map (f : value -> outcome value) (v : value)
  : outcome (list value) :=
  match v with
  | Arr l => map_outcome f l
  | _ => Throw TypeError
  end.

(** [v?.map(f)] *)
Definition js_opt_map (f : value -> outcome value) (v : value) : outcome value :=
  match v with
  | Undefined | Null => Ok Undefined
  | _ => obind (js_map f v) (fun ys => Ok (Arr ys))
  end.

(** [error.response?.data?.message || error.message] *)
Definition api_message (e : AxiosError) : value :=
  or_else
    (match err_response e with
     | Some d => opt_prop d "message"
     | None => Undefined
     end)
    (Str (err_message e)).

(** ** Process configuration *)

Record Env : Type := mkEnv {
  METABASE_URL : option string;
  METABASE_USERNAME : option string;
  METABASE_PASSWORD : option string;
  METABASE_API_KEY : option string
}.

(** an environment variable is a string or [undefined] *)
Definition env_value (o : option string) : value :=
  match o with Some s => Str s | None => Undefined end.

Definition present (o : option string) : bool := truthy (env_value o).

(** ** The external service and the HTTP client *)

Inductive Method : Type := GET | POST | PUT | DELETE.

Record Request : Type := mkRequest {
  method : Method;
  url : string;
  body : value
}.

Inductive Response : Type :=
| Resolved (data : value)
| Rejected (e : AxiosError).

Definition is_method (m : Method) (r : Request) : bool :=
  match m, method r with
  | GET, GET | POST, POST | PUT, PUT | DELETE, DELETE => true
  | _, _ => false
  end.

(** ** Resource URIs

    [/^metabase:\/\/<kind>\/(\d+)$/]: the prefix, then one or more ASCII
    digits up to the end of the string; the capture is the digit run. *)

Definition is_digit (c : ascii) : bool :=
  (48 <=? nat_of_ascii c)%nat && (nat_of_ascii c <=? 57)%nat.

Fixpoint all_digits (s : string) : bool :=
  match s with
  | EmptyString => true
  | String c r => is_digit c && all_digits r
  end.

Fixpoint strip_prefix (p s : string) : option string :=
  match p, s with
  | EmptyString, _ => Some s
  | String a p', String b s' => if Ascii.eqb a b then strip_prefix p' s' else None
  | String _ _, EmptyString => None
  end.

Definition match_id (prefix uri : string) : option string :=
  match strip_prefix prefix uri with
  | Some (String c r) => if all_digits (String c r) then Some (String c r) else None
  | _ => None
  end.

(** ** Replies *)

Record TextContent : Type := mkText {
  type : string;
  text : string
}.

(** [{ content: [...], isError?: boolean }]; an absent [isError] is [false] *)
Record CallToolResult : Type := mkResult {
  content : list TextContent;
  isError : bool
}.

Record ResourceContent : Type := mkContent {
  uri : string;
  mimeType : string;
  rtext : string
}.

Record ReadResourceResult : Type := mkRead {
  contents : list ResourceContent
}.

Definition text_reply (s : string) : CallToolResult :=
  mkResult [mkText "text" s] false.

Definition error_reply (s : string) : CallToolResult :=
  mkResult [mkText "text" s] true.

(** ** The tool catalogue

    The names of the [switch] in the tools/call handler, and of each
    tool's [inputSchema] the property types and the [required] list. *)

Inductive Tool : Type :=
| list_dashboards | list_cards | list_databases | list_collections
| get_database | get_database_metadata | execute_card | get_dashboard_cards
| execute_query | create_card | update_card | delete_card
| create_dashboard | update_dashboard | delete_dashboard
| add_card_to_dashboard | remove_card_from_dashboard
| update_dashboard_card | create_dashboard_only_card.

Definition all_tools : list Tool :=
  [list_dashboards; list_cards; list_databases; list_collections;
   get_database; get_database_metadata; execute_card; get_dashboard_cards;
   execute_query; create_card; update_card; delete_card;
   create_dashboard; update_dashboard; delete_dashboard;
   add_card_to_dashboard; remove_card_from_dashboard;
   update_dashboard_card; create_dashboard_only_card].

Definition tool_name (t : Tool) : string :=
  match t with
  | list_dashboards => "list_dashboards"
  | list_cards => "list_cards"
  | list_databases => "list_databases"
  | list_collections => "list_collections"
  | get_database => "get_database"
  | get_database_metadata => "get_database_metadata"
  | execute_card => "execute_card"
  | get_dashboard_cards => "get_dashboard_cards"
  | execute_query => "execute_query"
  | create_card => "create_card"
  | update_card => "update_card"
  | delete_card => "delete_card"
  | create_dashboard => "create_dashboard"
  | update_dashboard => "update_dashboard"
  | delete_dashboard => "delete_dashboard"
  | add_card_to_dashboard => "add_card_to_dashboard"
  | remove_card_from_dashboard => "remove_card_from_dashboard"
  | update_dashboard_card => "update_dashboard_card"
  | create_dashboard_only_card => "create_dashboard_only_card"
  end.

(** the [case] label a name selects, if any *)
Definition tool_of_name (name : string) : option Tool :=
  find (fun t => String.eqb name (tool_name t)) all_tools.

Record InputSchema : Type := mkSchema {
  properties : list (string * string);
  required : list string
}.

Definition inputSchema (t : Tool) : InputSchema :=
  match t with
  | list_dashboards | list_databases | list_collections => mkSchema [] []
  | list_cards => mkSchema [("f", "string")] []
  | get_database | get_database_metadata =>
      mkSchema [("database_id", "number")] ["database_id"]
  | execute_card =>
      mkSchema [("card_id", "number"); ("parameters", "object")] ["card_id"]
  | get_dashboard_cards =>
      mkSchema [("dashboard_id", "number")] ["dashboard_id"]
  | execute_query =>
      mkSchema [("database_id", "number"); ("query", "string");
                ("collection", "string"); ("native_parameters", "array")]
               ["database_id"; "query"]
  | create_card =>
      mkSchema [("name", "string"); ("dataset_query", "object");
                ("display", "string"); ("visualization_settings", "object");
                ("collection_id", "number"); ("description", "string")]
               ["name"; "dataset_query"; "display"; "visualization_settings"]
  | update_card =>
      mkSchema [("card_id", "number"); ("name", "string");
                ("dataset_query", "object"); ("display", "string");
                ("visualization_settings", "object");
                ("collection_id", "number"); ("description", "string");
                ("archived", "boolean")]
               ["card_id"]
  | delete_card =>
      mkSchema [("card_id", "number"); ("hard_delete", "boolean")] ["card_id"]
  | create_dashboard =>
      mkSchema [("name", "string"); ("description", "string");
                ("parameters", "array"); ("collection_id", "number")]
               ["name"]
  | update_dashboard =>
      mkSchema [("dashboard_id", "number"); ("name", "string");
                ("description", "string"); ("parameters", "array");
                ("collection_id", "number"); ("archived", "boolean")]
               ["dashboard_id"]
  | delete_dashboard =>
      mkSchema [("dashboard_id", "number"); ("hard_delete", "boolean")]
               ["dashboard_id"]
  | add_card_to_dashboard =>
      mkSchema [("dashboard_id", "number"); ("card_id", "number");
                ("row", "number"); ("col", "number"); ("size_x", "number");
                ("size_y", "number"); ("dashboard_tab_id", "number")]
               ["dashboard_id"; "card_id"]
  | remove_card_from_dashboard =>
      mkSchema [("dashboard_id", "number"); ("dashcard_id", "number")]
               ["dashboard_id"; "dashcard_id"]
  | update_dashboard_card =>
      mkSchema [("dashboard_id", "number"); ("dashcard_id", "number");
                ("row", "number"); ("col", "number"); ("size_x", "number");
                ("size_y", "number"); ("parameter_mappings", "array")]
               ["dashboard_id"; "dashcard_id"]
  | create_dashboard_only_card =>
      mkSchema [("dashboard_id", "number"); ("name", "string");
                ("dataset_query", "object"); ("display", "string");
                ("visualization_settings", "object"); ("row", "number");
                ("col", "number"); ("size_x", "number"); ("size_y", "number")]
               ["dashboard_id"; "name"; "dataset_query"; "display";
                "visualization_settings"]
  end.

Definition declared_type (t : Tool) (k : string) : option string :=
  option_map snd (find (fun p => String.eqb k (fst p)) (properties (inputSchema t))).

(** the required arguments a tool declares with type number: its ids *)
Definition required_ids (t : Tool) : list string :=
  filter (fun k => match declared_type t k with
                   | Some ty => String.eqb ty "number"
                   | None => false
                   end)
         (required (inputSchema t)).

(** the canonical dashcard record written back by the placement tools *)
Definition reshape_dashcard (dc : value) : outcome value :=
  obind (prop dc "id") (fun id =>
  obind (prop dc "card_id") (fun card_id =>
  obind (prop dc "row") (fun row =>
  obind (prop dc "col") (fun col =>
  obind (prop dc "size_x") (fun size_x =>
  obind (prop dc "size_y") (fun size_y =>
  obind (prop dc "series") (fun series =>
  obind (prop dc "visualization_settings") (fun vs =>
  obind (prop dc "parameter_mappings") (fun pm =>
  Ok (Obj [("id", id); ("card_id", card_id); ("row", row); ("col", col);
           ("size_x", size_x); ("size_y", size_y);
           ("series", or_else series (Arr []));
           ("visualization_settings", or_else vs (Obj []));
           ("parameter_mappings", or_else pm (Arr []))])))))))))).

(** the reduction of a field and of a table in get_database_metadata *)
Definition filter_field (field : value) : outcome value :=
  obind (prop field "id") (fun id =>
  obind (prop field "name") (fun name =>
  obind (prop field "database_type") (fun ty =>
  Ok (Obj [("id", id); ("name", name); ("database_type", ty)])))).

Definition filter_table (table : value) : outcome value :=
  obind (prop table "id") (fun id =>
  obind (prop table "name") (fun name =>
  obind (prop table "fields") (fun fs =>
  obind (js_opt_map filter_field fs) (fun mapped =>
  Ok (Obj [("id", id); ("name", name);
           ("fields", or_else mapped (Arr []))]))))).

Definition filter_metadata (data : value) : outcome value :=
  obind (prop data "id") (fun id =>
  obind (prop data "name") (fun name =>
  obind (prop data "tables") (fun ts =>
  obind (js_opt_map filter_table ts) (fun mapped =>
  Ok (Obj [("id", id); ("name", name);
           ("tables", or_else mapped (Arr []))]))))).

(** the entry update_dashboard_card writes for one existing dashcard *)
Definition update_dashcard (dashcard_id parameter_mappings : value)
    (updateFields : fields) (dc : value) : outcome value :=
  obind (prop dc "id") (fun id =>
  if strict_eq id dashcard_id then
    obind (prop dc "card_id") (fun card_id =>
    obind (prop dc "row") (fun row =>
    obind (prop dc "col") (fun col =>
    obind (prop dc "size_x") (fun size_x =>
    obind (prop dc "size_y") (fun size_y =>
    obind (prop dc "series") (fun series =>
    obind (prop dc "visualization_settings") (fun vs =>
    obind (prop dc "parameter_mappings") (fun pm =>
    let pick k old :=
      if defined (get k updateFields) then get k updateFields else old in
    Ok (Obj [("id", id); ("card_id", card_id);
             ("row", pick "row" row); ("col", pick "col" col);
             ("size_x", pick "size_x" size_x);
             ("size_y", pick "size_y" size_y);
             ("series", or_else series (Arr []));
             ("visualization_settings", or_else vs (Obj []));
             ("parameter_mappings",
              if defined parameter_mappings then parameter_mappings
              else or_else pm (Arr []))])))))))))
  else reshape_dashcard dc).

(** ** Resource descriptors (resources/list) *)

Record Resource : Type := mkResource {
  res_uri : string;
  res_mimeType : string;
  res_name : value;
  res_description : string
}.

(** [v.length], the count the list handler logs *)
Definition length_of (v : value) : outcome value :=
  match v with
  | Undefined | Null => Throw TypeError
  | Str s => Ok (Num (Z.of_nat (String.length s)))
  | Arr l => Ok (Num (Z.of_nat (length l)))
  | Obj fs => Ok (get "length" fs)
  | _ => Ok Undefined
  end.

(** the descriptor of one dashboard *)
Definition dashboard_resource (dashboard : value) : outcome Resource :=
  obind (prop dashboard "id") (fun id =>
  obind (prop dashboard "name") (fun name =>
  Ok (mkResource ("metabase://dashboard/" ^^ toStr id) "application/json"
                 name ("Metabase dashboard: " ^^ toStr name)))).

Fixpoint map_results {A} (f : value -> outcome A) (l : list value)
  : outcome (list A) :=
  match l with
  | [] => Ok []
  | x :: r =>
      obind (f x) (fun y => obind (map_results f r) (fun ys => Ok (y :: ys)))
  end.

(** [v.map(f)] for a callback that builds a record *)
Definition js_map_to {A} (f : value -> outcome A) (v : value)
  : outcome (list A) :=
  match v with
  | Arr l => map_results f l
  | _ => Throw TypeError
  end.

(** ** The server *)

Section Server.

(** the external service: any state type and any transition function *)
Context {World : Type}.
Variable respond : World -> Request -> Response * World.

(** [JSON.stringify(v, null, 2)] *)
Variable stringify : value -> string.

(** the four module-level constants read from [process.env] *)
Variable env : Env.

(** [this.sessionToken], the default headers of [this.axiosInstance],
    the request schemas for which a handler is registered, and the
    world outside: the service and the record of every exchange *)
Record State : Type := mkState {
  sessionToken : value;
  headers : fields;
  handlers : list string;
  trace : list (Request * Response);
  world : World
}.

Definition M (A : Type) : Type := State -> outcome A * State.

Definition ret {A} (a : A) : M A := fun st => (Ok a, st).

Definition throw {A} (e : exn) : M A := fun st => (Throw e, st).

Definition bind {A B} (m : M A) (k : A -> M B) : M B :=
  fun st =>
    match m st with
    | (Ok a, st') => k a st'
    | (Throw e, st') => (Throw e, st')
    end.

(** [try { m } catch (error) { h error }] *)
Definition try_catch {A} (m : M A) (h : exn -> M A) : M A :=
  fun st =>
    match m st with
    | (Ok a, st') => (Ok a, st')
    | (Throw e, st') => h e st'
    end.

(** a computation that touches neither the server nor the service *)
Definition lift {A} (o : outcome A) : M A := fun st => (o, st).

Notation "x <- m ;; k" := (bind m (fun x => k))
  (at level 61, m at next level, right associativity).
Notation "m ;;; k" := (bind m (fun _ => k))
  (at level 61, right associativity).

(** one awaited axios call: the promise resolves with [response.data]
    or rejects with an axios error *)
Definition axios (m : Method) (u : string) (b : value) : M value :=
  fun st =>
    let rq := mkRequest m u b in
    let (resp, w') := respond (world st) rq in
    let st' := mkState (sessionToken st) (headers st) (handlers st)
                       (trace st ++ [(rq, resp)]) w' in
    match resp with
    | Resolved d => (Ok d, st')
    | Rejected e => (Throw (AxiosErr e), st')
    end.

Definition axios_get (u : string) : M value := axios GET u Undefined.
Definition axios_delete (u : string) : M value := axios DELETE u Undefined.
Definition axios_post (u : string) (b : value) : M value := axios POST u b.
Definition axios_put (u : string) (b : value) : M value := axios PUT u b.

(** *** Start-up *)

Definition env_error : string :=
  "Either (METABASE_URL and METABASE_API_KEY) or (METABASE_URL, METABASE_USERNAME, and METABASE_PASSWORD) environment variables are required".

(** the module-level check of the environment *)
Definition check_env : outcome unit :=
  if negb (present (METABASE_URL env))
     || (negb (present (METABASE_API_KEY env))
         && (negb (present (METABASE_USERNAME env))
             || negb (present (METABASE_PASSWORD env))))
  then Throw (JsError env_error)
  else Ok tt.

Definition all_handlers : list string :=
  ["resources/list"; "resources/list_templates"; "resources/read";
   "tools/list"; "tools/call"].

(** [new MetabaseServer()]: the client is created, the authentication
    mode chosen, and only then the handlers are registered *)
Definition constructor (w : World) : outcome State :=
  let hs := [("Content-Type", Str "application/json")] in
  if present (METABASE_API_KEY env) then
    Ok (mkState (Str "api_key_used")
                (set "X-API-Key" (env_value (METABASE_API_KEY env)) hs)
                all_handlers [] w)
  else if present (METABASE_USERNAME env) && present (METABASE_PASSWORD env) then
    Ok (mkState Null hs all_handlers [] w)
  else
    Throw (JsError "Metabase authentication credentials not provided or incomplete.").

(** the module body in program order: the check, then the server *)
Definition startup (w : World) : outcome State :=
  obind check_env (fun _ => constructor w).

Definition registered (o : outcome State) : list string :=
  match o with Ok st => handlers st | Throw _ => [] end.

(** *** Session *)

(** the body of the login post *)
Definition credentials : value :=
  Obj [("username", env_value (METABASE_USERNAME env));
       ("password", env_value (METABASE_PASSWORD env))].

Definition login_request : Request :=
  mkRequest POST "/api/session" credentials.

Definition auth_failed : exn :=
  McpError InternalError "Failed to authenticate with Metabase".

(** the two assignments after a login that resolved *)
Definition store_token (tok : value) : M unit :=
  fun st =>
    (Ok tt, mkState tok (set "X-Metabase-Session" tok (headers st))
                    (handlers st) (trace st) (world st)).

Definition getSessionToken : M value :=
  fun st =>
    if truthy (sessionToken st) then (Ok (sessionToken st), st)
    else
      try_catch
        (data <- axios_post "/api/session" credentials ;;
         tok <- lift (prop data "id") ;;
         store_token tok ;;;
         ret tok)
        (fun _ => throw auth_failed)
        st.

(** [if (!METABASE_API_KEY) { await this.getSessionToken(); }] *)
Definition ensure_session : M unit :=
  if negb (present (METABASE_API_KEY env)) then
    getSessionToken ;;; ret tt
  else ret tt.

(** *** resources/read *)

Definition read_reply (u : string) (d : value) : ReadResourceResult :=
  mkRead [mkContent u "application/json" (stringify d)].

Definition api_error_text (e : AxiosError) : string :=
  "Metabase API error: " ^^ toStr (api_message e).

Definition read_resource_body (u : string) : M ReadResourceResult :=
  match match_id "metabase://dashboard/" u with
  | Some dashboardId =>
      d <- axios_get ("/api/dashboard/" ^^ dashboardId) ;;
      ret (read_reply u d)
  | None =>
  match match_id "metabase://card/" u with
  | Some cardId =>
      d <- axios_get ("/api/card/" ^^ cardId) ;;
      ret (read_reply u d)
  | None =>
  match match_id "metabase://database/" u with
  | Some databaseId =>
      d <- axios_get ("/api/database/" ^^ databaseId) ;;
      ret (read_reply u d)
  | None =>
      throw (McpError InvalidRequest ("Invalid URI format: " ^^ u))
  end end end.

Definition ReadResourceHandler (u : string) : M ReadResourceResult :=
  ensure_session ;;;
  try_catch (read_resource_body u)
    (fun error =>
       match error with
       | AxiosErr e => throw (McpError InternalError (api_error_text e))
       | _ => throw error
       end).

(** *** tools/call *)

(** [request.params?.arguments?.k] and [request.params?.arguments || {}];
    the protocol delivers [arguments] as an object or not at all *)
Definition arg (args : option fields) (k : string) : value :=
  match args with Some fs => get k fs | None => Undefined end.

Definition args_object (args : option fields) : fields :=
  match args with Some fs => fs | None => [] end.

(** [if (c) { throw new McpError(ErrorCode.InvalidParams, msg); }] *)
Definition invalid_if (c : bool) (msg : string) : M unit :=
  if c then throw (McpError InvalidParams msg) else ret tt.

Definition json_reply (d : value) : CallToolResult :=
  text_reply (stringify d).

Definition base_url : string := toStr (env_value (METABASE_URL env)).

Definition tool_list_dashboards : M CallToolResult :=
  d <- axios_get "/api/dashboard" ;;
  ret (json_reply d).

Definition tool_list_cards (args : option fields) : M CallToolResult :=
  let f := or_else (arg args "f") (Str "all") in
  d <- axios_get ("/api/card?f=" ^^ toStr f) ;;
  ret (json_reply d).

Definition tool_list_databases : M CallToolResult :=
  d <- axios_get "/api/database" ;;
  ret (json_reply d).

Definition tool_list_collections : M CallToolResult :=
  d <- axios_get "/api/collection" ;;
  ret (json_reply d).

Definition tool_get_database (args : option fields) : M CallToolResult :=
  let databaseId := arg args "database_id" in
  invalid_if (negb (truthy databaseId)) "Database ID is required" ;;;
  d <- axios_get ("/api/database/" ^^ toStr databaseId) ;;
  ret (json_reply d).

Definition tool_get_database_metadata (args : option fields) : M CallToolResult :=
  let databaseId := arg args "database_id" in
  invalid_if (negb (truthy databaseId)) "Database ID is required" ;;;
  d <- axios_get ("/api/database/" ^^ toStr databaseId ^^ "/metadata") ;;
  filteredData <- lift (filter_metadata d) ;;
  ret (json_reply filteredData).

Definition tool_execute_card (args : option fields) : M CallToolResult :=
  let cardId := arg args "card_id" in
  invalid_if (negb (truthy cardId)) "Card ID is required" ;;;
  let parameters := or_else (arg args "parameters") (Obj []) in
  d <- axios_post ("/api/card/" ^^ toStr cardId ^^ "/query")
                  (Obj [("parameters", parameters)]) ;;
  ret (json_reply d).

Definition tool_get_dashboard_cards (args : option fields) : M CallToolResult :=
  let dashboardId := arg args "dashboard_id" in
  invalid_if (negb (truthy dashboardId)) "Dashboard ID is required" ;;;
  d <- axios_get ("/api/dashboard/" ^^ toStr dashboardId) ;;
  dcs <- lift (prop d "dashcards") ;;
  cs <- lift (prop d "cards") ;;
  let dashcards := or_else (or_else dcs cs) (Arr []) in
  ret (json_reply dashcards).

(** the two bodies execute_query posts *)
Definition mongo_query (collection queryStr parameters database : value) : value :=
  Obj [("type", Str "native");
       ("native", Obj [("collection", collection); ("query", queryStr);
                       ("template_tags", Obj [])]);
       ("parameters", parameters);
       ("database", database)].

Definition sql_query (query parameters database : value) : value :=
  Obj [("type", Str "native");
       ("native", Obj [("query", query); ("template_tags", Obj [])]);
       ("parameters", parameters);
       ("database", database)].

Definition tool_execute_query (args : option fields) : M CallToolResult :=
  let databaseId := arg args "database_id" in
  let query := arg args "query" in
  let collectionParam := arg args "collection" in
  let nativeParameters := or_else (arg args "native_parameters") (Arr []) in
  invalid_if (negb (truthy databaseId)) "Database ID is required" ;;;
  invalid_if (negb (truthy query)) "Query is required" ;;;
  dbResponse <- axios_get ("/api/database/" ^^ toStr databaseId) ;;
  dbEngine <- lift (prop dbResponse "engine") ;;
  queryData <-
    (if strict_eq dbEngine (Str "mongo") then
       invalid_if (negb (truthy collectionParam))
                  "Collection name is required for MongoDB queries" ;;;
       let queryStr := Str (toStr query) in
       ret (mongo_query collectionParam queryStr nativeParameters databaseId)
     else
       ret (sql_query query nativeParameters databaseId)) ;;
  d <- axios_post "/api/dataset" queryData ;;
  ret (json_reply d).

(** [{ ...data, _link: link, _message: message }] *)
Definition with_link (data : value) (link message : string) : value :=
  Obj (set "_message" (Str message) (set "_link" (Str link) (spread data))).

(** [if (v !== undefined) body.k = v;] *)
Definition set_if_defined (k : string) (v : value) (b : fields) : fields :=
  if defined v then set k v b else b.

Definition createCardBody (a : fields) : fields :=
  set_if_defined "description" (get "description" a)
    (set_if_defined "collection_id" (get "collection_id" a)
       [("name", get "name" a);
        ("dataset_query", get "dataset_query" a);
        ("display", get "display" a);
        ("visualization_settings", get "visualization_settings" a)]).

Definition tool_create_card (args : option fields) : M CallToolResult :=
  let a := args_object args in
  invalid_if (negb (truthy (get "name" a))
              || negb (truthy (get "dataset_query" a))
              || negb (truthy (get "display" a))
              || negb (truthy (get "visualization_settings" a)))
    "Missing required fields for create_card: name, dataset_query, display, visualization_settings" ;;;
  d <- axios_post "/api/card" (Obj (createCardBody a)) ;;
  cardId <- lift (prop d "id") ;;
  let cardLink := base_url ^^ "/question/" ^^ toStr cardId in
  ret (json_reply
         (with_link d cardLink
            ("Card created successfully! View it at: " ^^ cardLink))).

Definition tool_update_card (args : option fields) : M CallToolResult :=
  let a := args_object args in
  let card_id := get "card_id" a in
  let updateFields := remove "card_id" a in
  invalid_if (negb (truthy card_id)) "Card ID is required for update_card" ;;;
  invalid_if (Nat.eqb (length (keys updateFields)) 0)
             "No fields provided for update_card" ;;;
  d <- axios_put ("/api/card/" ^^ toStr card_id) (Obj updateFields) ;;
  ret (json_reply d).

Definition tool_delete_card (args : option fields) : M CallToolResult :=
  let a := args_object args in
  let card_id := get "card_id" a in
  let hard_delete := default_to (Bool false) (get "hard_delete" a) in
  invalid_if (negb (truthy card_id)) "Card ID is required for delete_card" ;;;
  if truthy hard_delete then
    axios_delete ("/api/card/" ^^ toStr card_id) ;;;
    ret (text_reply ("Card " ^^ toStr card_id ^^ " permanently deleted."))
  else
    d <- axios_put ("/api/card/" ^^ toStr card_id) (Obj [("archived", Bool true)]) ;;
    ret (text_reply
           (if truthy d
            then "Card " ^^ toStr card_id ^^ " archived. Details: " ^^ stringify d
            else "Card " ^^ toStr card_id ^^ " archived.")).

Definition createDashboardBody (a : fields) : fields :=
  set_if_defined "collection_id" (get "collection_id" a)
    (set_if_defined "parameters" (get "parameters" a)
       (set_if_defined "description" (get "description" a)
          [("name", get "name" a)])).

Definition tool_create_dashboard (args : option fields) : M CallToolResult :=
  let a := args_object args in
  invalid_if (negb (truthy (get "name" a)))
             "Missing required field for create_dashboard: name" ;;;
  d <- axios_post "/api/dashboard" (Obj (createDashboardBody a)) ;;
  dashboardId <- lift (prop d "id") ;;
  let dashboardLink := base_url ^^ "/dashboard/" ^^ toStr dashboardId in
  ret (json_reply
         (with_link d dashboardLink
            ("Dashboard created successfully! View it at: " ^^ dashboardLink))).

Definition tool_update_dashboard (args : option fields) : M CallToolResult :=
  let a := args_object args in
  let dashboard_id := get "dashboard_id" a in
  let updateFields := remove "dashboard_id" a in
  invalid_if (negb (truthy dashboard_id))
             "Dashboard ID is required for update_dashboard" ;;;
  invalid_if (Nat.eqb (length (keys updateFields)) 0)
             "No fields provided for update_dashboard" ;;;
  d <- axios_put ("/api/dashboard/" ^^ toStr dashboard_id) (Obj updateFields) ;;
  ret (json_reply d).

Definition tool_delete_dashboard (args : option fields) : M CallToolResult :=
  let a := args_object args in
  let dashboard_id := get "dashboard_id" a in
  let hard_delete := default_to (Bool false) (get "hard_delete" a) in
  invalid_if (negb (truthy dashboard_id))
             "Dashboard ID is required for delete_dashboard" ;;;
  if truthy hard_delete then
    axios_delete ("/api/dashboard/" ^^ toStr dashboard_id) ;;;
    ret (text_reply ("Dashboard " ^^ toStr dashboard_id ^^ " permanently deleted."))
  else
    d <- axios_put ("/api/dashboard/" ^^ toStr dashboard_id)
                   (Obj [("archived", Bool true)]) ;;
    ret (text_reply
           (if truthy d
            then "Dashboard " ^^ toStr dashboard_id ^^ " archived. Details: "
                 ^^ stringify d
            else "Dashboard " ^^ toStr dashboard_id ^^ " archived.")).

(** the entry add_card_to_dashboard appends *)
Definition new_dashcard (card_id row col size_x size_y : value) : value :=
  Obj [("id", Num (-1)); ("card_id", card_id); ("row", row); ("col", col);
       ("size_x", size_x); ("size_y", size_y)].

Definition tool_add_card_to_dashboard (args : option fields) : M CallToolResult :=
  let a := args_object args in
  let dashboard_id := get "dashboard_id" a in
  let card_id := get "card_id" a in
  let row := default_to (Num 0) (get "row" a) in
  let col := default_to (Num 0) (get "col" a) in
  let size_x := default_to (Num 4) (get "size_x" a) in
  let size_y := default_to (Num 4) (get "size_y" a) in
  invalid_if (negb (truthy dashboard_id))
             "Dashboard ID is required for add_card_to_dashboard" ;;;
  invalid_if (negb (truthy card_id))
             "Card ID is required for add_card_to_dashboard" ;;;
  dashboardResponse <- axios_get ("/api/dashboard/" ^^ toStr dashboard_id) ;;
  dcs <- lift (prop dashboardResponse "dashcards") ;;
  let existingCards := or_else dcs (Arr []) in
  existingCardsFormatted <- lift (js_map reshape_dashcard existingCards) ;;
  let allCards :=
    existingCardsFormatted ++ [new_dashcard card_id row col size_x size_y] in
  let updateBody := Obj [("cards", Arr allCards)] in
  d <- axios_put ("/api/dashboard/" ^^ toStr dashboard_id ^^ "/cards") updateBody ;;
  ret (json_reply d).

Definition tool_remove_card_from_dashboard (args : option fields)
  : M CallToolResult :=
  let a := args_object args in
  let dashboard_id := get "dashboard_id" a in
  let dashcard_id := get "dashcard_id" a in
  invalid_if (negb (truthy dashboard_id))
             "Dashboard ID is required for remove_card_from_dashboard" ;;;
  invalid_if (negb (truthy dashcard_id))
             "Dashcard ID is required for remove_card_from_dashboard" ;;;
  axios_delete ("/api/dashboard/" ^^ toStr dashboard_id ^^ "/cards/"
                ^^ toStr dashcard_id) ;;;
  ret (text_reply ("Card " ^^ toStr dashcard_id ^^ " removed from dashboard "
                   ^^ toStr dashboard_id ^^ ".")).

Definition tool_update_dashboard_card (args : option fields) : M CallToolResult :=
  let a := args_object args in
  let dashboard_id := get "dashboard_id" a in
  let dashcard_id := get "dashcard_id" a in
  let parameter_mappings := get "parameter_mappings" a in
  let updateFields :=
    remove "parameter_mappings" (remove "dashcard_id" (remove "dashboard_id" a)) in
  invalid_if (negb (truthy dashboard_id))
             "Dashboard ID is required for update_dashboard_card" ;;;
  invalid_if (negb (truthy dashcard_id))
             "Dashcard ID is required for update_dashboard_card" ;;;
  invalid_if (Nat.eqb (length (keys updateFields)) 0
              && negb (defined parameter_mappings))
             "No fields provided for update_dashboard_card" ;;;
  dashboardResponse <- axios_get ("/api/dashboard/" ^^ toStr dashboard_id) ;;
  dcs <- lift (prop dashboardResponse "dashcards") ;;
  let existingCards := or_else dcs (Arr []) in
  updatedCards <-
    lift (js_map (update_dashcard dashcard_id parameter_mappings updateFields)
                 existingCards) ;;
  let updateBody := Obj [("cards", Arr updatedCards)] in
  d <- axios_put ("/api/dashboard/" ^^ toStr dashboard_id ^^ "/cards") updateBody ;;
  ret (json_reply d).

(** the synthetic dashcard of a dashboard-only card *)
Definition virtualCard (name dataset_query display visualization_settings
                        row col size_x size_y : value) : value :=
  Obj [("id", Num (-1)); ("card_id", Null); ("row", row); ("col", col);
       ("size_x", size_x); ("size_y", size_y);
       ("series", Arr []); ("parameter_mappings", Arr []);
       ("visualization_settings",
        Obj (set "virtual_card"
                 (Obj [("name", name); ("display", display);
                       ("visualization_settings", visualization_settings);
                       ("dataset_query", dataset_query)])
                 (spread visualization_settings)))].

Definition tool_create_dashboard_only_card (args : option fields)
  : M CallToolResult :=
  let a := args_object args in
  let dashboard_id := get "dashboard_id" a in
  let name := get "name" a in
  let dataset_query := get "dataset_query" a in
  let display := get "display" a in
  let visualization_settings := get "visualization_settings" a in
  let row := default_to (Num 0) (get "row" a) in
  let col := default_to (Num 0) (get "col" a) in
  let size_x := default_to (Num 4) (get "size_x" a) in
  let size_y := default_to (Num 4) (get "size_y" a) in
  invalid_if (negb (truthy dashboard_id))
             "Dashboard ID is required for create_dashboard_only_card" ;;;
  invalid_if (negb (truthy name) || negb (truthy dataset_query)
              || negb (truthy display) || negb (truthy visualization_settings))
    "Missing required fields: name, dataset_query, display, visualization_settings" ;;;
  dashboardResponse <- axios_get ("/api/dashboard/" ^^ toStr dashboard_id) ;;
  dcs <- lift (prop dashboardResponse "dashcards") ;;
  let existingCards := or_else dcs (Arr []) in
  existingCardsFormatted <- lift (js_map reshape_dashcard existingCards) ;;
  let allCards :=
    existingCardsFormatted
    ++ [virtualCard name dataset_query display visualization_settings
                    row col size_x size_y] in
  let updateBody := Obj [("cards", Arr allCards)] in
  d <- axios_put ("/api/dashboard/" ^^ toStr dashboard_id ^^ "/cards") updateBody ;;
  ret (json_reply d).

Definition run_tool (t : Tool) (args : option fields) : M CallToolResult :=
  match t with
  | list_dashboards => tool_list_dashboards
  | list_cards => tool_list_cards args
  | list_databases => tool_list_databases
  | list_collections => tool_list_collections
  | get_database => tool_get_database args
  | get_database_metadata => tool_get_database_metadata args
  | execute_card => tool_execute_card args
  | get_dashboard_cards => tool_get_dashboard_cards args
  | execute_query => tool_execute_query args
  | create_card => tool_create_card args
  | update_card => tool_update_card args
  | delete_card => tool_delete_card args
  | create_dashboard => tool_create_dashboard args
  | update_dashboard => tool_update_dashboard args
  | delete_dashboard => tool_delete_dashboard args
  | add_card_to_dashboard => tool_add_card_to_dashboard args
  | remove_card_from_dashboard => tool_remove_card_from_dashboard args
  | update_dashboard_card => tool_update_dashboard_card args
  | create_dashboard_only_card => tool_create_dashboard_only_card args
  end.

(** [switch (request.params?.name) { case ...: ... default: ... }] *)
Definition tool_switch (name : string) (args : option fields) : M CallToolResult :=
  match tool_of_name name with
  | Some t => run_tool t args
  | None => ret (error_reply ("Unknown tool: " ^^ name))
  end.

(** [try { switch ... } catch (error) { ... }] *)
Definition tool_body (name : string) (args : option fields) : M CallToolResult :=
  try_catch (tool_switch name args)
    (fun error =>
       match error with
       | AxiosErr e => ret (error_reply (api_error_text e))
       | _ => throw error
       end).

Definition CallToolHandler (name : string) (args : option fields)
  : M CallToolResult :=
  ensure_session ;;;
  tool_body name args.

(** [n] invocations of [getSessionToken], one after the other *)
Fixpoint invocations (n : nat) (st : State)
  : list (outcome value) * State :=
  match n with
  | O => ([], st)
  | S k =>
      let (o, st1) := getSessionToken st in
      let (os, st2) := invocations k st1 in
      (o :: os, st2)
  end.

(** *** resources/list *)

Definition list_failed : exn :=
  McpError InternalError "Failed to list Metabase resources".

Definition ListResourcesHandler : M (list Resource) :=
  ensure_session ;;;
  try_catch
    (d <- axios_get "/api/dashboard" ;;
     lift (length_of d) ;;;
     resources <- lift (js_map_to dashboard_resource d) ;;
     ret resources)
    (fun _ => throw list_failed).

End Server.

Arguments State : clear implicits.
Arguments M : clear implicits.
Arguments toStr : simpl never.

(** ** Vocabulary of the properties *)

Definition kinds : list string := ["dashboard"; "card"; "database"].

(** the number of calls with a given method in a trace *)
Definition calls (m : Method) (tr : list (Request * Response)) : nat :=
  length (filter (fun x => is_method m (fst x)) tr).

(** the id argument, the endpoint and the label of the delete and of the
    update tools *)
Definition delete_target (t : Tool) : option (string * string * string) :=
  match t with
  | delete_card => Some ("card_id", "/api/card/", "Card")
  | delete_dashboard => Some ("dashboard_id", "/api/dashboard/", "Dashboard")
  | _ => None
  end.


(** the canonical record of an existing dashcard, as the specification
    words it: identity, card reference, position, size, and the series,
    visualization settings and parameter mappings, empty when missing *)
Definition canonical (dc : fields) : value :=
  Obj [("id", get "id" dc); ("card_id", get "card_id" dc);
       ("row", get "row" dc); ("col", get "col" dc);
       ("size_x", get "size_x" dc); ("size_y", get "size_y" dc);
       ("series", or_else (get "series" dc) (Arr []));
       ("visualization_settings",
        or_else (get "visualization_settings" dc) (Obj []));
       ("parameter_mappings", or_else (get "parameter_mappings" dc) (Arr []))].

Definition declares_id (t : Tool) : bool :=
  negb (Nat.eqb (length (required_ids t)) 0).

(** a pure computation that throws nothing but what the language
    itself throws: never an axios error *)
Definition benign {A} (o : outcome A) : Prop :=
  forall e, o = Throw e -> isAxiosError e = false.

(** a computation that only adds to the trace, stops at the first
    rejected call with that call's error, and throws an axios error
    only for a rejected call *)
Definition fail_fast {World A} (m : M World A) : Prop :=
  forall st, exists delta,
    trace (snd (m st)) = trace st ++ delta
    /\ (forall rq e, In (rq, Rejected e) delta ->
                     fst (m st) = Throw (AxiosErr e))
    /\ (forall e, fst (m st) = Throw (AxiosErr e) ->
                  exists rq, In (rq, Rejected e) delta).

(** a login that was granted: the post to /api/session resolved with a
    record whose id is a token (a truthy value) *)
Definition granted (x : Request * Response) : bool :=
  is_method POST (fst x) && String.eqb (url (fst x)) "/api/session"
  && match snd x with
     | Resolved d =>
         match prop d "id" with Ok tok => truthy tok | Throw _ => false end
     | Rejected _ => false
     end.

(** the part of the state that belongs to the server itself *)
Definition server_of {World} (st : State World) : value * fields * list string :=
  (sessionToken st, headers st, handlers st).

(** a computation that leaves the server's own state alone *)
Definition keeps_server {World A} (m : M World A) : Prop :=
  forall st, server_of (snd (m st)) = server_of st.

(** a computation that makes at most [n] calls, each satisfying [P] *)
Definition within {World A} (P : Request -> Prop) (n : nat) (m : M World A)
  : Prop :=
  forall st, exists delta,
    trace (snd (m st)) = trace st ++ delta
    /\ Forall (fun x => P (fst x)) delta
    /\ length delta <= n.

(** the HTTP methods each tool body uses, and the most calls it makes *)
Definition tool_methods (t : Tool) : list Method :=
  match t with
  | list_dashboards | list_cards | list_databases | list_collections
  | get_database | get_database_metadata | get_dashboard_cards => [GET]
  | execute_card | create_card | create_dashboard => [POST]
  | execute_query => [GET; POST]
  | update_card | update_dashboard => [PUT]
  | delete_card | delete_dashboard => [DELETE; PUT]
  | remove_card_from_dashboard => [DELETE]
  | add_card_to_dashboard | update_dashboard_card
  | create_dashboard_only_card => [GET; PUT]
  end.

Definition tool_budget (t : Tool) : nat :=
  match t with
  | execute_query | add_card_to_dashboard | update_dashboard_card
  | create_dashboard_only_card => 2
  | _ => 1
  end.

(** a request a tool may make: one of its methods, under /api/, and not
    the login endpoint *)
Definition tool_request (t : Tool) (rq : Request) : Prop :=
  In (method rq) (tool_methods t)
  /\ String.prefix "/api/" (url rq) = true
  /\ url rq <> "/api/session".

(** a read of the service: a GET under /api/, not the login endpoint *)
Definition read_request (rq : Request) : Prop :=
  method rq = GET
  /\ String.prefix "/api/" (url rq) = true
  /\ url rq <> "/api/session".

(** a pure computation whose only exception is a TypeError *)
Definition only_type_error {A} (o : outcome A) : Prop :=
  forall e, o = Throw e -> e = TypeError.

(** a computation that throws no protocol error *)
Definition no_protocol_error {World A} (m : M World A) : Prop :=
  forall st c msg, fst (m st) <> Throw (McpError c msg).

(** a computation whose protocol errors are [invalid_params], thrown
    with the state untouched *)
Definition validates_first {World A} (m : M World A) : Prop :=
  forall st c msg,
    fst (m st) = Throw (McpError c msg) ->
    c = InvalidParams /\ snd (m st) = st.



(** the tools that read a field of a response body *)
Definition reads_body (t : Tool) : bool :=
  match t with
  | get_database_metadata | get_dashboard_cards | execute_query
  | create_card | create_dashboard | add_card_to_dashboard
  | update_dashboard_card | create_dashboard_only_card => true
  | _ => false
  end.

(** a computation whose every reply is one plain text item, not flagged
    as an error *)
Definition replies_text {World} (m : M World CallToolResult) : Prop :=
  forall st r, fst (m st) = Ok r -> exists s, r = text_reply s.

(** the tools that rewrite a dashboard's list of cards *)
Definition rewrites_cards (t : Tool) : bool :=
  match t with
  | add_card_to_dashboard | update_dashboard_card
  | create_dashboard_only_card => true
  | _ => false
  end.

(** ** A scripted service, for concrete runs

    The world is the list of responses still to be given, whatever is
    asked; once the script is used up every call resolves with [{}]. *)

Definition Script : Type := list Response.

Definition scripted (w : Script) (_ : Request) : Response * Script :=
  match w with
  | [] => (Resolved (Obj []), [])
  | r :: w' => (r, w')
  end.

Definition dquote : string := String (ascii_of_nat 34) EmptyString.

(** a stand-in for [JSON.stringify] in concrete runs: it tells the JSON
    types apart and prints scalars *)
Definition show (v : value) : string :=
  match v with
  | Undefined => "undefined"
  | Null => "null"
  | Bool _ | Num _ => toStr v
  | Str s => dquote ^^ s ^^ dquote
  | Arr _ => "[...]"
  | Obj _ => "{...}"
  end.

Definition key_env : Env :=
  mkEnv (Some "http://mb") None None (Some "mb_key").

Definition login_env : Env :=
  mkEnv (Some "http://mb") (Some "ada") (Some "s3cret") None.

(** the server as the constructor leaves it, in either mode *)
Definition key_state (w : Script) : State Script :=
  mkState (Str "api_key_used")
          [("Content-Type", Str "application/json"); ("X-API-Key", Str "mb_key")]
          all_handlers [] w.

Definition login_state (w : Script) : State Script :=
  mkState Null [("Content-Type", Str "application/json")] all_handlers [] w.

Definition offline : AxiosError := mkAxiosError None "connect ECONNREFUSED".

Definition denied : AxiosError :=
  mkAxiosError (Some (Obj [("message", Str "Unauthenticated")]))
               "Request failed with status code 401".

Definition limit_query : string :=
  "[{" ^^ dquote ^^ "$limit" ^^ dquote ^^ ":10}]".

Definition short (tr : list (Request * Response)) : list (Method * string) :=
  map (fun x => (method (fst x), url (fst x))) tr.

Definition mongo_db : value := Obj [("id", Num 4); ("engine", Str "mongo")].

Definition events_args : fields :=
  [("database_id", Num 4); ("query", Str limit_query); ("collection", Str "events")].

Definition placed : fields :=
  [("id", Num 11); ("card_id", Num 5); ("row", Num 0); ("col", Num 0);
   ("size_x", Num 6); ("size_y", Num 3)].

Definition new_card_args : fields :=
  [("name", Str "Revenue"); ("dataset_query", Obj [("database", Num 4)]);
   ("display", Str "table"); ("visualization_settings", Obj []);
   ("description", Null)].

Definition two_dashboards : list fields :=
  [[("id", Num 42); ("name", Str "Sales")];
   [("id", Num 7); ("name", Str "Ops")]].

Definition granted_login : value := Obj [("id", Str "s-1")].

Definition stored_state (w : Script) : State Script :=
  mkState (Str "s-1")
          [("Content-Type", Str "application/json");
           ("X-Metabase-Session", Str "s-1")]
          all_handlers [(login_request login_env, Resolved granted_login)] w.

Definition metadata_body : value :=
  Obj [("id", Num 4); ("name", Str "warehouse"); ("engine", Str "postgres");
       ("tables",
        Arr [Obj [("id", Num 1); ("name", Str "orders"); ("rows", Num 120);
                  ("fields",
                   Arr [Obj [("id", Num 10); ("name", Str "total");
                             ("database_type", Str "numeric");
                             ("fingerprint", Obj [])]])]])].



Definition virtual_args : fields :=
  [("dashboard_id", Num 2); ("name", Str "Total");
   ("dataset_query", Obj [("database", Num 4)]); ("display", Str "scalar");
   ("visualization_settings", Obj [("scalar.compact", Bool true)])].

(** * Properties *)

(** ** Property lists *)

Lemma get_remove_same (k : string) (fs : fields) :
  get k (remove k fs) = Undefined.
Proof.
  induction fs as [|[k' v] r IH]; simpl; [reflexivity|].
  destruct (String.eqb k k') eqn:E; simpl; [exact IH|].
  rewrite E. exact IH.
Qed.

Lemma get_remove_other (k k' : string) (fs : fields) :
  k <> k' -> get k (remove k' fs) = get k fs.
Proof.
  intros Hne. induction fs as [|[k2 v] r IH]; simpl; [reflexivity|].
  destruct (String.eqb k' k2) eqn:E; simpl.
  - apply String.eqb_eq in E. subst k2.
    destruct (String.eqb k k') eqn:E2; [|exact IH].
    apply String.eqb_eq in E2. contradiction.
  - rewrite IH. reflexivity.
Qed.

Lemma get_absent (k : string) (fs : fields) :
  ~ In k (keys fs) -> get k fs = Undefined.
Proof.
  induction fs as [|[k' v] r IH]; simpl; intros H; [reflexivity|].
  destruct (String.eqb k k') eqn:E.
  - apply String.eqb_eq in E. subst. exfalso. apply H. left. reflexivity.
  - apply IH. intros Hin. apply H. right. exact Hin.
Qed.


Lemma get_set_same (k : string) (v : value) (fs : fields) :
  get k (set k v fs) = v.
Proof.
  induction fs as [|[k' v'] r IH]; simpl.
  - rewrite String.eqb_refl. reflexivity.
  - destruct (String.eqb k k') eqn:E; simpl.
    + rewrite String.eqb_refl. reflexivity.
    + rewrite E. exact IH.
Qed.

Lemma get_set_other (k k' : string) (v : value) (fs : fields) :
  k <> k' -> get k (set k' v fs) = get k fs.
Proof.
  intros Hne. apply String.eqb_neq in Hne.
  induction fs as [|[k2 v2] r IH]; simpl.
  - rewrite Hne. reflexivity.
  - destruct (String.eqb k' k2) eqn:E; simpl.
    + apply String.eqb_eq in E. subst k2. rewrite Hne. reflexivity.
    + rewrite IH. reflexivity.
Qed.


Lemma strict_eq_mongo (v : value) :
  strict_eq v (Str "mongo") = true <-> v = Str "mongo".
Proof.
  split.
  - destruct v; simpl; try discriminate.
    intros H. apply String.eqb_eq in H. subst. reflexivity.
  - intros ->. reflexivity.
Qed.

Lemma tool_of_name_name (t : Tool) : tool_of_name (tool_name t) = Some t.
Proof. destruct t; reflexivity. Qed.

Lemma tool_of_name_some (name : string) (t : Tool) :
  tool_of_name name = Some t -> name = tool_name t.
Proof.
  unfold tool_of_name. intros H.
  apply find_some in H. destruct H as [_ H].
  apply String.eqb_eq in H. exact H.
Qed.

Lemma tool_of_name_none (name : string) :
  (forall t, name <> tool_name t) -> tool_of_name name = None.
Proof.
  intros H. destruct (tool_of_name name) as [t|] eqn:E; [|reflexivity].
  apply tool_of_name_some in E. exfalso. exact (H t E).
Qed.

(** ** Resource URI patterns *)

Lemma strip_prefix_app (p r : string) : strip_prefix p (p ^^ r) = Some r.
Proof.
  induction p as [|a p IH]; simpl; [destruct r; reflexivity|].
  rewrite Ascii.eqb_refl. exact IH.
Qed.

Lemma strip_prefix_inv (p s r : string) :
  strip_prefix p s = Some r -> s = p ^^ r.
Proof.
  revert s. induction p as [|a p IH]; intros s H; simpl in *.
  - destruct s; congruence.
  - destruct s as [|b s]; [discriminate|].
    destruct (Ascii.eqb a b) eqn:E; [|discriminate].
    apply Ascii.eqb_eq in E. subst b. rewrite (IH s H). reflexivity.
Qed.

(** [match_id] is the regular expression: the URI is the prefix followed
    by a non-empty run of digits, which is the capture *)
Lemma match_id_spec (p u id : string) :
  match_id p u = Some id <->
  u = p ^^ id /\ id <> EmptyString /\ all_digits id = true.
Proof.
  unfold match_id. split.
  - destruct (strip_prefix p u) as [[|c r]|] eqn:E; try discriminate.
    destruct (all_digits (String c r)) eqn:D; [|discriminate].
    intros H. injection H as <-.
    split; [apply strip_prefix_inv; exact E|]. split; [discriminate|exact D].
  - intros (-> & Hne & D). rewrite strip_prefix_app.
    destruct id as [|c r]; [contradiction|]. rewrite D. reflexivity.
Qed.

Lemma match_id_none (p u : string) :
  match_id p u = None <->
  (forall id, id <> EmptyString -> all_digits id = true -> u <> p ^^ id).
Proof.
  split.
  - intros H id Hne D E.
    assert (match_id p u = Some id) by (apply match_id_spec; auto).
    congruence.
  - intros H. destruct (match_id p u) as [id|] eqn:E; [|reflexivity].
    apply match_id_spec in E. destruct E as (E & Hne & D).
    exfalso. exact (H id Hne D E).
Qed.

Section Properties.

Context {World : Type}.
Variable respond : World -> Request -> Response * World.
Variable stringify : value -> string.
Variable env : Env.

Notation "m ;;; k" := (bind m (fun _ => k))
  (at level 61, right associativity).

(** ** Running the monad *)

Lemma axios_run (m : Method) (u : string) (b : value) (st : State World)
    (resp : Response) (w' : World) :
  respond (world st) (mkRequest m u b) = (resp, w') ->
  axios respond m u b st =
    (match resp with
     | Resolved d => Ok d
     | Rejected e => Throw (AxiosErr e)
     end,
     mkState (sessionToken st) (headers st) (handlers st)
             (trace st ++ [(mkRequest m u b, resp)]) w').
Proof.
  intros H. unfold axios. rewrite H. destruct resp; reflexivity.
Qed.

Lemma ensure_then {A} (m : M World A) (st st1 : State World) :
  ensure_session respond env st = (Ok tt, st1) ->
  (ensure_session respond env ;;; m) st = m st1.
Proof. intros H. unfold bind. rewrite H. reflexivity. Qed.

(** with an API key, or with a token already stored, resolving the
    credential does nothing *)
Lemma ensure_ready (st : State World) :
  present (METABASE_API_KEY env) = true \/ truthy (sessionToken st) = true ->
  ensure_session respond env st = (Ok tt, st).
Proof.
  unfold ensure_session. intros [H|H].
  - rewrite H. reflexivity.
  - destruct (present (METABASE_API_KEY env)); [reflexivity|].
    simpl. unfold bind, getSessionToken. rewrite H. reflexivity.
Qed.

Lemma invocations_cached (n : nat) (st : State World) :
  truthy (sessionToken st) = true ->
  invocations respond env n st = (repeat (Ok (sessionToken st)) n, st).
Proof.
  intros H. induction n as [|n IH]; simpl; [reflexivity|].
  unfold getSessionToken at 1. rewrite H. rewrite IH. reflexivity.
Qed.

Lemma invocations_one_grant (n : nat) (st : State World) :
  truthy (sessionToken st) = false ->
  exists made,
    trace (snd (invocations respond env n st)) = trace st ++ made
    /\ length (filter granted made) <= 1
    /\ (truthy (sessionToken (snd (invocations respond env n st))) = true ->
        length (filter granted made) = 1).
Proof.
  revert st. induction n as [|n IH]; intros st Hnone.
  - exists []. cbn [invocations snd]. rewrite app_nil_r, Hnone.
    split; [reflexivity|]. split; [simpl; lia|discriminate].
  - cbn [invocations].
    destruct (respond (world st) (login_request env)) as [resp w1] eqn:E.
    assert (Hstep :
      exists st1,
        getSessionToken respond env st = (fst (getSessionToken respond env st), st1)
        /\ trace st1 = trace st ++ [(login_request env, resp)]
        /\ truthy (sessionToken st1) = granted (login_request env, resp)).
    { unfold getSessionToken. rewrite Hnone.
      unfold login_request in E. unfold try_catch, bind, axios_post.
      rewrite (axios_run _ _ _ _ _ _ E).
      destruct resp as [d|e].
      - unfold lift. unfold granted. cbn [snd fst is_method method url login_request].
        destruct (prop d "id") as [tok|x].
        + eexists. split; [reflexivity|]. split; reflexivity.
        + eexists. split; [reflexivity|]. split; [reflexivity|].
          cbn [sessionToken]. rewrite Hnone. reflexivity.
      - eexists. split; [reflexivity|]. split; [reflexivity|].
        cbn [sessionToken]. rewrite Hnone. reflexivity. }
    destruct Hstep as (st1 & Hrun & Htr & Htok).
    rewrite Hrun.
    destruct (truthy (sessionToken st1)) eqn:Hc.
    + rewrite (invocations_cached n st1 Hc). cbn [snd].
      exists [(login_request env, resp)]. split; [exact Htr|].
      cbn [filter]. rewrite <- Htok. cbn [length]. split; [lia|reflexivity].
    + destruct (IH st1 Hc) as (made & T & L & G).
      destruct (invocations respond env n st1) as [os st2]. cbn [snd] in *.
      exists ((login_request env, resp) :: made).
      rewrite T, Htr, <- app_assoc. split; [reflexivity|].
      cbn [filter]. rewrite <- Htok. split; [exact L|exact G].
Qed.

(** ** Start-up (C3) *)

(** C3, in the form the code satisfies.  Start-up stops with the fatal configuration error,
    no handler registered, exactly when the base URL is missing, or the
    API key is missing and so is the username or the password; it
    succeeds, with all five handlers registered, exactly when the base
    URL is present and at least one authentication mode is complete.
    An API key makes the username and password irrelevant. *)
Theorem startup_fails_iff_no_complete_mode (w : World) :
  ((startup env w = Throw (JsError env_error)
    /\ registered (startup env w) = [])
   <->
   (present (METABASE_URL env) = false
    \/ (present (METABASE_API_KEY env) = false
        /\ (present (METABASE_USERNAME env) = false
            \/ present (METABASE_PASSWORD env) = false))))
  /\
  ((exists st, startup env w = Ok st /\ handlers st = all_handlers)
   <->
   (present (METABASE_URL env) = true
    /\ (present (METABASE_API_KEY env) = true
        \/ (present (METABASE_USERNAME env) = true
            /\ present (METABASE_PASSWORD env) = true)))).
Proof.
  unfold startup, check_env, constructor.
  destruct (present (METABASE_URL env)), (present (METABASE_API_KEY env)),
    (present (METABASE_USERNAME env)), (present (METABASE_PASSWORD env));
    simpl; (split; split);
    try (intros [? ?]; discriminate);
    try (intros [st [? ?]]; discriminate);
    try (intros _; split; reflexivity);
    try (intros _; eexists; split; reflexivity);
    try (intros _; auto; fail);
    try (intros [? | [? [? | ?]]]; discriminate);
    try (intros [? [? | [? ?]]]; discriminate).
Qed.

(** ** Session (C1) *)

(** C1.  With no credential stored (username/password mode before a
    login has succeeded) [getSessionToken] posts the login.  If the
    post is rejected it throws the authentication error of kind
    [internal_error] and leaves token and headers as they were, so the
    next invocation posts the login again.  If the post resolves with a
    token, the token is stored and installed as the session header, and
    any number of further invocations return it with no network call:
    [S n] invocations in a row make exactly one login.  Whatever the
    service answers, [n] invocations in a row contain at most one granted
    login, and exactly one when they end with a credential stored. *)
Theorem getSessionToken_login_once (st : State World) :
  truthy (sessionToken st) = false ->
  (forall resp w1,
      respond (world st) (login_request env) = (resp, w1) ->
      trace (snd (getSessionToken respond env st))
      = trace st ++ [(login_request env, resp)])
  /\
  (forall e w1,
      respond (world st) (login_request env) = (Rejected e, w1) ->
      let st1 := mkState (sessionToken st) (headers st) (handlers st)
                   (trace st ++ [(login_request env, Rejected e)]) w1 in
      getSessionToken respond env st
      = (Throw (McpError InternalError "Failed to authenticate with Metabase"),
         st1)
      /\ code_string InternalError = "internal_error"
      /\ forall resp w2,
          respond w1 (login_request env) = (resp, w2) ->
          trace (snd (getSessionToken respond env st1))
          = trace st ++ [(login_request env, Rejected e);
                         (login_request env, resp)])
  /\
  (forall d tok w1,
      respond (world st) (login_request env) = (Resolved d, w1) ->
      prop d "id" = Ok tok ->
      truthy tok = true ->
      let st1 := mkState tok (set "X-Metabase-Session" tok (headers st))
                   (handlers st)
                   (trace st ++ [(login_request env, Resolved d)]) w1 in
      getSessionToken respond env st = (Ok tok, st1)
      /\ get "X-Metabase-Session" (headers st1) = tok
      /\ forall n,
          invocations respond env n st1 = (repeat (Ok tok) n, st1)
          /\ invocations respond env (S n) st = (repeat (Ok tok) (S n), st1))
  /\
  (forall n,
      exists made,
        trace (snd (invocations respond env n st)) = trace st ++ made
        /\ length (filter granted made) <= 1
        /\ (truthy (sessionToken (snd (invocations respond env n st))) = true ->
            length (filter granted made) = 1)).
Proof.
  intros Hnone.
  assert (Hfail : forall e w1 (s : State World),
             truthy (sessionToken s) = false ->
             respond (world s) (login_request env) = (Rejected e, w1) ->
             getSessionToken respond env s
             = (Throw (McpError InternalError "Failed to authenticate with Metabase"),
                mkState (sessionToken s) (headers s) (handlers s)
                  (trace s ++ [(login_request env, Rejected e)]) w1)).
  { intros e w1 s Hs H. unfold getSessionToken. rewrite Hs.
    unfold login_request in H. unfold try_catch, bind, axios_post.
    rewrite (axios_run _ _ _ _ _ _ H). reflexivity. }
  assert (Htrace : forall resp w1 (s : State World),
             truthy (sessionToken s) = false ->
             respond (world s) (login_request env) = (resp, w1) ->
             trace (snd (getSessionToken respond env s))
             = trace s ++ [(login_request env, resp)]).
  { intros resp w1 s Hs H. unfold getSessionToken. rewrite Hs.
    unfold login_request in H. unfold try_catch, bind, axios_post.
    rewrite (axios_run _ _ _ _ _ _ H).
    destruct resp as [d|e]; [|reflexivity].
    unfold lift. destruct (prop d "id"); reflexivity. }
  split; [intros resp w1 H; exact (Htrace resp w1 st Hnone H)|].
  split; [|split].
  - intros e w1 H st1. split; [exact (Hfail e w1 st Hnone H)|].
    split; [reflexivity|].
    intros resp w2 H2.
    rewrite (Htrace resp w2 st1 Hnone H2). unfold st1. simpl.
    rewrite <- app_assoc. reflexivity.
  - intros d tok w1 H Hid Htok st1.
    assert (Hrun : getSessionToken respond env st = (Ok tok, st1)).
    { unfold getSessionToken. rewrite Hnone.
      unfold login_request in H. unfold try_catch, bind, axios_post.
      rewrite (axios_run _ _ _ _ _ _ H).
      unfold lift. rewrite Hid. reflexivity. }
    split; [exact Hrun|].
    split; [apply get_set_same|].
    intros n.
    assert (Hc : invocations respond env n st1 = (repeat (Ok tok) n, st1)).
    { exact (invocations_cached n st1 Htok). }
    split; [exact Hc|].
    simpl. rewrite Hrun. rewrite Hc. reflexivity.
  - intros n. exact (invocations_one_grant n st Hnone).
Qed.

(** ** resources/read (C4) *)

Lemma match_kind (kind id : string) :
  In kind kinds -> id <> EmptyString -> all_digits id = true ->
  let u := "metabase://" ^^ kind ^^ "/" ^^ id in
  read_resource_body respond stringify u
  = bind (axios_get respond ("/api/" ^^ kind ^^ "/" ^^ id))
         (fun d => ret (read_reply stringify u d)).
Proof.
  intros Hk Hne D u. unfold read_resource_body.
  assert (Hm : forall p, match_id p (p ^^ id) = Some id).
  { intros p. apply match_id_spec. auto. }
  destruct Hk as [<-|[<-|[<-|[]]]]; subst u.
  - change ("metabase://" ^^ "dashboard" ^^ "/" ^^ id)
      with ("metabase://dashboard/" ^^ id).
    rewrite Hm. reflexivity.
  - change ("metabase://" ^^ "card" ^^ "/" ^^ id)
      with ("metabase://card/" ^^ id).
    rewrite Hm.
    replace (match_id "metabase://dashboard/" ("metabase://card/" ^^ id))
      with (@None string) by reflexivity.
    reflexivity.
  - change ("metabase://" ^^ "database" ^^ "/" ^^ id)
      with ("metabase://database/" ^^ id).
    rewrite Hm.
    replace (match_id "metabase://dashboard/" ("metabase://database/" ^^ id))
      with (@None string) by reflexivity.
    replace (match_id "metabase://card/" ("metabase://database/" ^^ id))
      with (@None string) by reflexivity.
    reflexivity.
Qed.

(** C4.  Once the credential is resolved: a URI that is not
    [metabase://<kind>/<digits>] for a kind among dashboard, card and
    database makes the handler throw [invalid_request] with the URI in
    the message, and no HTTP call is made; a URI of that form makes it
    issue exactly one GET, to [/api/<kind>/<digits>], and when the GET
    resolves the reply is the single content item carrying the original
    URI and the pretty-printed body.  (A GET that is rejected becomes an
    [internal_error].) *)
Theorem read_resource_by_uri (st st1 : State World) (u : string) :
  ensure_session respond env st = (Ok tt, st1) ->
  ((forall kind id,
       In kind kinds -> id <> EmptyString -> all_digits id = true ->
       u <> "metabase://" ^^ kind ^^ "/" ^^ id) ->
   ReadResourceHandler respond stringify env u st
   = (Throw (McpError InvalidRequest ("Invalid URI format: " ^^ u)), st1)
   /\ code_string InvalidRequest = "invalid_request")
  /\
  (forall kind id resp w1,
      In kind kinds -> id <> EmptyString -> all_digits id = true ->
      u = "metabase://" ^^ kind ^^ "/" ^^ id ->
      let rq := mkRequest GET ("/api/" ^^ kind ^^ "/" ^^ id) Undefined in
      respond (world st1) rq = (resp, w1) ->
      ReadResourceHandler respond stringify env u st
      = (match resp with
         | Resolved d => Ok (mkRead [mkContent u "application/json" (stringify d)])
         | Rejected e =>
             Throw (McpError InternalError
                      ("Metabase API error: " ^^ toStr (api_message e)))
         end,
         mkState (sessionToken st1) (headers st1) (handlers st1)
                 (trace st1 ++ [(rq, resp)]) w1)).
Proof.
  intros Hens. split.
  - intros Hno. split; [|reflexivity].
    unfold ReadResourceHandler. rewrite (ensure_then _ _ _ Hens).
    unfold try_catch, read_resource_body.
    assert (H1 : match_id "metabase://dashboard/" u = None).
    { apply match_id_none. intros id Hne D.
      exact (Hno "dashboard" id (or_introl eq_refl) Hne D). }
    assert (H2 : match_id "metabase://card/" u = None).
    { apply match_id_none. intros id Hne D.
      exact (Hno "card" id (or_intror (or_introl eq_refl)) Hne D). }
    assert (H3 : match_id "metabase://database/" u = None).
    { apply match_id_none. intros id Hne D.
      exact (Hno "database" id (or_intror (or_intror (or_introl eq_refl))) Hne D). }
    rewrite H1, H2, H3. reflexivity.
  - intros kind id resp w1 Hk Hne D -> rq Hr.
    unfold ReadResourceHandler. rewrite (ensure_then _ _ _ Hens).
    unfold try_catch. rewrite (match_kind kind id Hk Hne D).
    unfold bind, axios_get. unfold rq in *.
    rewrite (axios_run _ _ _ _ _ _ Hr).
    destruct resp; reflexivity.
Qed.

(** ** execute_query (C2) *)

Lemma calls_app (m : Method) (a b : list (Request * Response)) :
  calls m (a ++ b) = calls m a + calls m b.
Proof. unfold calls. rewrite filter_app, length_app. reflexivity. Qed.

Lemma strict_eq_not_mongo (v : value) :
  v <> Str "mongo" -> strict_eq v (Str "mongo") = false.
Proof.
  intros H. destruct (strict_eq v (Str "mongo")) eqn:E; [|reflexivity].
  apply strict_eq_mongo in E. contradiction.
Qed.

Lemma bind_axios {A} (m : Method) (u : string) (b : value)
    (k : value -> M World A) (st : State World) (resp : Response) (w' : World) :
  respond (world st) (mkRequest m u b) = (resp, w') ->
  bind (axios respond m u b) k st
  = let st' := mkState (sessionToken st) (headers st) (handlers st)
                 (trace st ++ [(mkRequest m u b, resp)]) w' in
    match resp with
    | Resolved d => k d st'
    | Rejected e => (Throw (AxiosErr e), st')
    end.
Proof.
  intros H. unfold bind. rewrite (axios_run _ _ _ _ _ _ H).
  destruct resp; reflexivity.
Qed.

Lemma bind_lift {A B} (o : outcome A) (k : A -> M World B) (st : State World) :
  bind (lift o) k st
  = match o with Ok a => k a st | Throw e => (Throw e, st) end.
Proof. unfold bind, lift. destruct o; reflexivity. Qed.

Lemma bind_ret {A B} (a : A) (k : A -> M World B) (st : State World) :
  bind (ret a) k st = k a st.
Proof. reflexivity. Qed.

Lemma bind_invalid_if {B} (c : bool) (msg : string) (k : unit -> M World B)
    (st : State World) :
  bind (invalid_if c msg) k st
  = if c then (Throw (McpError InvalidParams msg), st) else k tt st.
Proof. unfold bind, invalid_if. destruct c; reflexivity. Qed.

Lemma bind_assoc {A B C} (m : M World A) (f : A -> M World B)
    (g : B -> M World C) (st : State World) :
  bind (bind m f) g st = bind m (fun x => bind (f x) g) st.
Proof. unfold bind. destruct (m st) as [[a|e] st']; reflexivity. Qed.

Ltac step :=
  repeat (rewrite ?bind_assoc, ?bind_invalid_if, ?bind_lift, ?bind_ret;
          cbn [negb orb andb fst snd ret throw
               trace world sessionToken headers handlers]).

Ltac call H :=
  unfold axios_get, axios_post, axios_put, axios_delete;
  match goal with
  | |- context [bind (axios respond ?m ?u ?b) ?k ?s] =>
      rewrite (bind_axios m u b k s _ _ H)
  end; step.

(** a call whose response is not known: both cases *)
Ltac blind_call :=
  unfold axios_get, axios_post, axios_put, axios_delete;
  unfold bind at 1; unfold axios at 1; cbv zeta; cbn [world];
  match goal with
  | |- context [respond ?w ?r] =>
      let resp := fresh "resp" in
      let w' := fresh "w" in
      destruct (respond w r) as [resp w']; destruct resp
  end; step.

(** C2.  Once the credential is resolved, execute_query with a
    database id and a query first issues GET /api/database/<id>.  When
    that resolves with an engine: for engine "mongo" and no collection
    the handler throws [invalid_params] having made no POST; for engine
    "mongo" and a collection it posts to /api/dataset the native body
    carrying the collection and [String(query)], the query itself when
    it is a string; for any other engine it posts the same shape with no
    collection in the native object.  A rejected POST comes back as an
    error-flagged reply. *)
Theorem execute_query_dialects (st st1 : State World) (args : option fields) :
  ensure_session respond env st = (Ok tt, st1) ->
  let databaseId := arg args "database_id" in
  let query := arg args "query" in
  let collection := arg args "collection" in
  let parameters := or_else (arg args "native_parameters") (Arr []) in
  let lookup := mkRequest GET ("/api/database/" ^^ toStr databaseId) Undefined in
  let run := CallToolHandler respond stringify env "execute_query" args st in
  truthy databaseId = true ->
  truthy query = true ->
  (forall resp w1,
      respond (world st1) lookup = (resp, w1) ->
      exists rest, trace (snd run) = trace st1 ++ (lookup, resp) :: rest)
  /\
  (forall d engine w1,
      respond (world st1) lookup = (Resolved d, w1) ->
      prop d "engine" = Ok engine ->
      (engine = Str "mongo" -> truthy collection = false ->
       run = (Throw (McpError InvalidParams
                       "Collection name is required for MongoDB queries"),
              mkState (sessionToken st1) (headers st1) (handlers st1)
                      (trace st1 ++ [(lookup, Resolved d)]) w1)
       /\ calls POST (trace (snd run)) = calls POST (trace st1))
      /\
      (engine = Str "mongo" -> truthy collection = true ->
       let post :=
         mkRequest POST "/api/dataset"
           (Obj [("type", Str "native");
                 ("native", Obj [("collection", collection);
                                 ("query", Str (toStr query));
                                 ("template_tags", Obj [])]);
                 ("parameters", parameters);
                 ("database", databaseId)]) in
       forall resp w2,
         respond w1 post = (resp, w2) ->
         run = (match resp with
                | Resolved r => Ok (json_reply stringify r)
                | Rejected e => Ok (error_reply (api_error_text e))
                end,
                mkState (sessionToken st1) (headers st1) (handlers st1)
                        (trace st1 ++ [(lookup, Resolved d); (post, resp)]) w2))
      /\
      (engine <> Str "mongo" ->
       let native := [("query", query); ("template_tags", Obj [])] in
       let post :=
         mkRequest POST "/api/dataset"
           (Obj [("type", Str "native");
                 ("native", Obj native);
                 ("parameters", parameters);
                 ("database", databaseId)]) in
       ~ In "collection" (keys native)
       /\ forall resp w2,
           respond w1 post = (resp, w2) ->
           run = (match resp with
                  | Resolved r => Ok (json_reply stringify r)
                  | Rejected e => Ok (error_reply (api_error_text e))
                  end,
                  mkState (sessionToken st1) (headers st1) (handlers st1)
                          (trace st1 ++ [(lookup, Resolved d); (post, resp)]) w2)))
  /\
  (forall s, query = Str s -> Str (toStr query) = query).
Proof.
  intros Hens databaseId query collection parameters lookup run Hid Hq.
  assert (Hrun : run = tool_body respond stringify env "execute_query" args st1).
  { unfold run, CallToolHandler. apply ensure_then. exact Hens. }
  rewrite Hrun. clear Hrun run.
  unfold tool_body, tool_switch, try_catch.
  change (tool_of_name "execute_query") with (Some execute_query).
  unfold run_tool, tool_execute_query.
  fold databaseId query collection parameters.
  rewrite Hid, Hq. step.
  split; [|split].
  - intros resp w1 H. call H.
    destruct resp as [d|e]; step; [|eexists; reflexivity].
    destruct (prop d "engine") as [engine|x]; step.
    + destruct (strict_eq engine (Str "mongo")); step.
      * destruct (truthy collection); step.
        -- blind_call; rewrite <- ?app_assoc; eexists; reflexivity.
        -- eexists; reflexivity.
      * blind_call; rewrite <- ?app_assoc; eexists; reflexivity.
    + destruct x; step; eexists; reflexivity.
  - intros d engine w1 H He. split; [|split].
    + intros -> Hc. call H. rewrite He, Hc.
      change (strict_eq (Str "mongo") (Str "mongo")) with true. step.
      split; [reflexivity|].
      rewrite calls_app. simpl. apply Nat.add_0_r.
    + intros -> Hc resp w2 Hp. call H. rewrite He, Hc.
      change (strict_eq (Str "mongo") (Str "mongo")) with true. step.
      unfold mongo_query. call Hp.
      destruct resp; step; rewrite <- app_assoc; reflexivity.
    + intros Hne. split.
      * simpl. intros [E|[E|[]]]; discriminate.
      * intros resp w2 Hp. call H. rewrite He.
        rewrite (strict_eq_not_mongo _ Hne). step.
        unfold sql_query. call Hp.
        destruct resp; step; rewrite <- app_assoc; reflexivity.
  - intros s ->. reflexivity.
Qed.

(** ** delete_card, delete_dashboard (C5) *)

Lemma arg_args_object (args : option fields) (k : string) :
  get k (args_object args) = arg args k.
Proof. destruct args; reflexivity. Qed.


Lemma calls_snoc_other (m m' : Method) (tr : list (Request * Response))
    (u : string) (b : value) (resp : Response) :
  is_method m (mkRequest m' u b) = false ->
  calls m (tr ++ [(mkRequest m' u b, resp)]) = calls m tr.
Proof.
  intros H. rewrite calls_app. unfold calls at 2. simpl.
  rewrite H. simpl. apply Nat.add_0_r.
Qed.


(** ** update_card, update_dashboard (C7) *)


(** ** add_card_to_dashboard (C6) *)

Lemma default_to_defined (dflt x : value) :
  x <> Undefined -> default_to dflt x = x.
Proof. destruct x; intros H; try reflexivity. contradiction. Qed.

Lemma reshape_records (recs : list fields) :
  js_map reshape_dashcard (Arr (map Obj recs)) = Ok (map canonical recs).
Proof.
  unfold js_map. induction recs as [|dc r IH]; [reflexivity|].
  cbn [map map_outcome]. rewrite IH. reflexivity.
Qed.

(** C6.  Once the credential is resolved, add_card_to_dashboard on a
    dashboard whose GET resolves with K dashcard records issues that
    GET and then one PUT to /api/dashboard/<id>/cards.  The [cards]
    array of the PUT has K+1 entries: the K existing ones in canonical
    form, then the new one, with the supplied card id, identity -1
    (different from every id the service has assigned, those being
    positive), row and column 0 and width and height 4 unless
    supplied. *)
Theorem add_card_appends_placeholder (st st1 : State World)
    (args : option fields) (d v : value) (recs : list fields) (w1 : World) :
  ensure_session respond env st = (Ok tt, st1) ->
  let a := args_object args in
  let dashboard_id := get "dashboard_id" a in
  let card_id := get "card_id" a in
  let run := CallToolHandler respond stringify env "add_card_to_dashboard" args st in
  let lookup :=
    mkRequest GET ("/api/dashboard/" ^^ toStr dashboard_id) Undefined in
  let entry :=
    [("id", Num (-1)); ("card_id", card_id);
     ("row", default_to (Num 0) (get "row" a));
     ("col", default_to (Num 0) (get "col" a));
     ("size_x", default_to (Num 4) (get "size_x" a));
     ("size_y", default_to (Num 4) (get "size_y" a))] in
  let cards := map canonical recs ++ [Obj entry] in
  let put :=
    mkRequest PUT ("/api/dashboard/" ^^ toStr dashboard_id ^^ "/cards")
              (Obj [("cards", Arr cards)]) in
  truthy dashboard_id = true ->
  truthy card_id = true ->
  respond (world st1) lookup = (Resolved d, w1) ->
  prop d "dashcards" = Ok v ->
  or_else v (Arr []) = Arr (map Obj recs) ->
  length cards = length recs + 1
  /\
  (forall resp w2,
      respond w1 put = (resp, w2) ->
      run = (match resp with
             | Resolved r => Ok (json_reply stringify r)
             | Rejected e => Ok (error_reply (api_error_text e))
             end,
             mkState (sessionToken st1) (headers st1) (handlers st1)
                     (trace st1 ++ [(lookup, Resolved d); (put, resp)]) w2))
  /\
  (forall k dflt,
      In (k, dflt) [("row", Num 0); ("col", Num 0);
                    ("size_x", Num 4); ("size_y", Num 4)] ->
      (~ In k (keys a) -> get k entry = dflt)
      /\ (get k a <> Undefined -> get k entry = get k a))
  /\
  (Forall (fun dc => exists z, get "id" dc = Num z /\ (0 < z)%Z) recs ->
   Forall (fun c => opt_prop c "id" <> get "id" entry) (map canonical recs))
  /\
  (forall dc k dflt,
      In dc recs ->
      In (k, dflt) [("series", Arr []); ("visualization_settings", Obj []);
                    ("parameter_mappings", Arr [])] ->
      ~ In k (keys dc) ->
      opt_prop (canonical dc) k = dflt).
Proof.
  intros Hens a dashboard_id card_id run lookup entry cards put
         Hd Hc Hget Hdcs Hrecs.
  split; [unfold cards; rewrite length_app, length_map; reflexivity|].
  split; [|split; [|split]].
  - intros resp w2 Hput.
    assert (Hrun : run = tool_body respond stringify env
                           "add_card_to_dashboard" args st1).
    { unfold run, CallToolHandler. apply ensure_then. exact Hens. }
    rewrite Hrun. unfold tool_body, tool_switch, try_catch.
    change (tool_of_name "add_card_to_dashboard") with (Some add_card_to_dashboard).
    unfold run_tool, tool_add_card_to_dashboard.
    fold a. fold dashboard_id card_id.
    rewrite Hd, Hc. step. unfold lookup in Hget. call Hget.
    rewrite Hdcs, Hrecs, reshape_records. step.
    unfold new_dashcard. unfold put, cards, entry in Hput. call Hput.
    destruct resp; step; rewrite <- app_assoc; reflexivity.
  - intros k dflt Hin. split.
    + intros Habs. apply get_absent in Habs.
      destruct Hin as [E|[E|[E|[E|[]]]]]; injection E as <- <-;
        cbn [get entry String.eqb Ascii.eqb Bool.eqb]; rewrite Habs; reflexivity.
    + intros Hdef.
      destruct Hin as [E|[E|[E|[E|[]]]]]; injection E as <- <-;
        cbn [get entry String.eqb Ascii.eqb Bool.eqb];
        apply default_to_defined; exact Hdef.
  - intros Hpos. apply Forall_forall. intros c Hc'.
    apply in_map_iff in Hc'. destruct Hc' as (dc & <- & Hdc).
    rewrite Forall_forall in Hpos. destruct (Hpos dc Hdc) as (z & Hz & Hlt).
    cbn. rewrite Hz. intros E. injection E as E. lia.
  - intros dc k dflt _ Hin Habs. apply get_absent in Habs.
    destruct Hin as [E|[E|[E|[]]]]; injection E as <- <-;
      cbn [opt_prop canonical get String.eqb Ascii.eqb Bool.eqb];
      rewrite Habs; reflexivity.
Qed.

(** ** create_card (C8) *)




(** ** Error reporting of tools/call (C9) *)

Lemma benign_Ok {A} (a : A) : benign (Ok a).
Proof. intros e H. discriminate. Qed.

Lemma benign_prop (v : value) (k : string) : benign (prop v k).
Proof.
  intros e. destruct v; simpl; intros H; try discriminate;
    injection H as <-; reflexivity.
Qed.

Lemma benign_obind {A B} (o : outcome A) (k : A -> outcome B) :
  benign o -> (forall a, benign (k a)) -> benign (obind o k).
Proof.
  intros Ho Hk e. destruct o as [a|x]; simpl.
  - apply Hk.
  - intros H. injection H as <-. apply Ho. reflexivity.
Qed.

Lemma benign_map_outcome (f : value -> outcome value) (l : list value) :
  (forall x, benign (f x)) -> benign (map_outcome f l).
Proof.
  intros Hf. induction l as [|x r IH]; simpl; [apply benign_Ok|].
  apply benign_obind; [apply Hf|]. intros y.
  apply benign_obind; [exact IH|]. intros ys. apply benign_Ok.
Qed.

Lemma benign_js_map (f : value -> outcome value) (v : value) :
  (forall x, benign (f x)) -> benign (js_map f v).
Proof.
  intros Hf. destruct v; simpl;
    try (intros e H; injection H as <-; reflexivity).
  apply benign_map_outcome. exact Hf.
Qed.

Lemma benign_js_opt_map (f : value -> outcome value) (v : value) :
  (forall x, benign (f x)) -> benign (js_opt_map f v).
Proof.
  intros Hf. unfold js_opt_map.
  destruct v; try apply benign_Ok;
    (apply benign_obind; [apply benign_js_map; exact Hf|]);
    intros ys; apply benign_Ok.
Qed.

Ltac benign_tac :=
  repeat first
    [ apply benign_Ok
    | apply benign_prop
    | apply benign_obind; [|intros ?]
    | apply benign_js_opt_map; intros ?
    | apply benign_js_map; intros ?
    | match goal with
      | |- benign (if ?c then _ else _) => destruct c
      end ].

Lemma benign_reshape (dc : value) : benign (reshape_dashcard dc).
Proof. unfold reshape_dashcard. benign_tac. Qed.

Lemma benign_filter_field (field : value) : benign (filter_field field).
Proof. unfold filter_field. benign_tac. Qed.

Lemma benign_filter_table (table : value) : benign (filter_table table).
Proof.
  unfold filter_table. benign_tac; try apply benign_filter_field.
Qed.

Lemma benign_filter_metadata (data : value) : benign (filter_metadata data).
Proof.
  unfold filter_metadata. benign_tac; try apply benign_filter_table.
Qed.

Lemma benign_update_dashcard (i pm : value) (uf : fields) (dc : value) :
  benign (update_dashcard i pm uf dc).
Proof.
  unfold update_dashcard. benign_tac; try apply benign_reshape.
Qed.

Lemma ff_ret {A} (a : A) : fail_fast (ret (World:=World) a).
Proof.
  intros st. exists []. simpl. rewrite app_nil_r.
  split; [reflexivity|]. split; [intros ? ? []|discriminate].
Qed.

Lemma ff_lift {A} (o : outcome A) : benign o -> fail_fast (lift (World:=World) o).
Proof.
  intros Ho st. exists []. simpl. rewrite app_nil_r.
  split; [reflexivity|]. split; [intros ? ? []|].
  intros e H. apply Ho in H. discriminate.
Qed.

Lemma ff_invalid_if (c : bool) (msg : string) :
  fail_fast (invalid_if (World:=World) c msg).
Proof.
  intros st. exists []. destruct c; simpl; rewrite app_nil_r;
    (split; [reflexivity|]); (split; [intros ? ? []|discriminate]).
Qed.

Lemma ff_axios (m : Method) (u : string) (b : value) :
  fail_fast (axios respond m u b).
Proof.
  intros st. destruct (respond (world st) (mkRequest m u b)) as [resp w'] eqn:E.
  rewrite (axios_run _ _ _ _ _ _ E).
  exists [(mkRequest m u b, resp)]. cbn [fst snd trace].
  split; [reflexivity|].
  destruct resp as [d|e]; split.
  - intros rq e [H|[]]. discriminate H.
  - intros e H. discriminate H.
  - intros rq e' [H|[]]. injection H as _ <-. reflexivity.
  - intros e' H. injection H as <-. exists (mkRequest m u b).
    left. reflexivity.
Qed.

Lemma ff_bind {A B} (m : M World A) (k : A -> M World B) :
  fail_fast m -> (forall a, fail_fast (k a)) -> fail_fast (bind m k).
Proof.
  intros Hm Hk st. destruct (Hm st) as (d1 & T1 & R1 & X1).
  unfold bind. destruct (m st) as [[a|x] st'] eqn:E; simpl in *.
  - destruct (Hk a st') as (d2 & T2 & R2 & X2).
    exists (d1 ++ d2). rewrite T2, T1, app_assoc.
    split; [reflexivity|]. split.
    + intros rq e Hin. apply in_app_or in Hin. destruct Hin as [Hin|Hin].
      * specialize (R1 _ _ Hin). discriminate R1.
      * exact (R2 _ _ Hin).
    + intros e He. destruct (X2 e He) as [rq Hin].
      exists rq. apply in_or_app. right. exact Hin.
  - exists d1. split; [exact T1|]. split.
    + intros rq e Hin. specialize (R1 _ _ Hin). injection R1 as ->. reflexivity.
    + intros e He. injection He as ->. apply X1. reflexivity.
Qed.

Ltac ff_tac :=
  cbv zeta;
  repeat first
    [ apply ff_ret
    | apply ff_invalid_if
    | apply ff_axios
    | apply ff_bind; [|intros ?]
    | apply ff_lift
    | match goal with
      | |- fail_fast (if ?c then _ else _) => destruct c
      end ].

Lemma run_tool_fail_fast (t : Tool) (args : option fields) :
  fail_fast (run_tool respond stringify env t args).
Proof.
  destruct t; unfold run_tool;
    unfold tool_list_dashboards, tool_list_cards, tool_list_databases,
      tool_list_collections, tool_get_database, tool_get_database_metadata,
      tool_execute_card, tool_get_dashboard_cards, tool_execute_query,
      tool_create_card, tool_update_card, tool_delete_card,
      tool_create_dashboard, tool_update_dashboard, tool_delete_dashboard,
      tool_add_card_to_dashboard, tool_remove_card_from_dashboard,
      tool_update_dashboard_card, tool_create_dashboard_only_card,
      axios_get, axios_post, axios_put, axios_delete;
    ff_tac;
    first [ apply benign_prop
          | apply benign_filter_metadata
          | apply benign_js_map; intros ?;
            first [apply benign_reshape | apply benign_update_dashcard] ].
Qed.

Lemma tool_switch_fail_fast (name : string) (args : option fields) :
  fail_fast (tool_switch respond stringify env name args).
Proof.
  unfold tool_switch. destruct (tool_of_name name).
  - apply run_tool_fail_fast.
  - apply ff_ret.
Qed.

(** C9.  Once the credential is resolved, for every tool name and
    arguments: if any HTTP call of the tool body is rejected, the
    handler does not throw but replies in the normal shape with
    [isError: true] and the text "Metabase API error: " followed by the
    service's own message when the error carries one, by the error's
    message otherwise; the handler never throws an axios error; an
    [invalid_params] error thrown by the body is thrown by the handler;
    and a name that is no tool's yields the error-flagged reply
    "Unknown tool: <name>", with no call made. *)
Theorem tool_failures_reported_in_band (name : string) (args : option fields)
    (st st1 : State World) :
  ensure_session respond env st = (Ok tt, st1) ->
  let run := CallToolHandler respond stringify env name args st in
  let body := tool_switch respond stringify env name args st1 in
  (exists made,
      trace (snd run) = trace st1 ++ made
      /\ forall rq e,
          In (rq, Rejected e) made ->
          fst run
          = Ok (mkResult
                  [mkText "text" ("Metabase API error: " ^^ toStr (api_message e))]
                  true))
  /\
  (forall e, fst run <> Throw (AxiosErr e))
  /\
  (forall msg,
      fst body = Throw (McpError InvalidParams msg) ->
      fst run = Throw (McpError InvalidParams msg))
  /\
  (forall e d,
      err_response e = Some d ->
      truthy (opt_prop d "message") = true ->
      api_message e = opt_prop d "message")
  /\
  (forall e,
      err_response e = None ->
      api_message e = Str (err_message e))
  /\
  ((forall t, name <> tool_name t) ->
   run = (Ok (mkResult [mkText "text" ("Unknown tool: " ^^ name)] true), st1)).
Proof.
  intros Hens run body.
  assert (Hrun : run = tool_body respond stringify env name args st1).
  { unfold run, CallToolHandler. apply ensure_then. exact Hens. }
  unfold tool_body, try_catch in Hrun. fold body in Hrun.
  destruct (tool_switch_fail_fast name args st1) as (made & T & R & X).
  fold body in T, R, X.
  split; [|split; [|split; [|split; [|split]]]].
  - exists made. rewrite Hrun.
    destruct body as [[r|x] st2]; cbn [fst snd] in *.
    + split; [exact T|]. intros rq e Hin.
      specialize (R _ _ Hin). discriminate R.
    + destruct x; cbn [fst snd ret throw]; (split; [exact T|]);
        intros rq e' Hin; specialize (R _ _ Hin); try discriminate R.
      injection R as ->. reflexivity.
  - intros e. rewrite Hrun.
    destruct body as [[r|x] st2]; cbn [fst]; [discriminate|].
    destruct x; cbn [fst ret throw]; discriminate.
  - intros msg H. rewrite Hrun.
    destruct body as [[r|x] st2]; cbn [fst] in *; [discriminate|].
    injection H as ->. reflexivity.
  - intros e d Hd Ht. unfold api_message, or_else. rewrite Hd, Ht. reflexivity.
  - intros e Hn. unfold api_message, or_else. rewrite Hn. reflexivity.
  - intros Hno. rewrite Hrun. unfold body, tool_switch.
    rewrite (tool_of_name_none name Hno). reflexivity.
Qed.

(** ** Required ids tested by truthiness (C10) *)

(** C10.  The tools that declare a required argument of type number are
    the thirteen listed; for each of them and each such argument, a call
    in which the argument is 0 is answered exactly as the call without
    the argument: [invalid_params], the same message, and no HTTP call
    (the state is the one credential resolution left). *)
Theorem zero_id_rejected_as_missing :
  map tool_name (filter declares_id all_tools)
  = ["get_database"; "get_database_metadata"; "execute_card";
     "get_dashboard_cards"; "execute_query"; "update_card"; "delete_card";
     "update_dashboard"; "delete_dashboard"; "add_card_to_dashboard";
     "remove_card_from_dashboard"; "update_dashboard_card";
     "create_dashboard_only_card"]
  /\
  forall (t : Tool) (k : string) (a : fields) (st st1 : State World),
    ensure_session respond env st = (Ok tt, st1) ->
    In k (required_ids t) ->
    get k a = Num 0 ->
    exists msg,
      CallToolHandler respond stringify env (tool_name t) (Some a) st
      = (Throw (McpError InvalidParams msg), st1)
      /\ CallToolHandler respond stringify env (tool_name t)
           (Some (remove k a)) st
         = (Throw (McpError InvalidParams msg), st1).
Proof.
  split; [reflexivity|].
  intros t k a st st1 Hens Hk H0.
  unfold CallToolHandler. rewrite !(ensure_then _ _ _ Hens).
  unfold tool_body, tool_switch, try_catch. rewrite tool_of_name_name.
  destruct t; vm_compute in Hk;
    repeat match type of Hk with
      | _ \/ _ => destruct Hk as [Hk|Hk]
      | False => contradiction
      end;
    subst k;
    unfold run_tool, tool_get_database, tool_get_database_metadata,
      tool_execute_card, tool_get_dashboard_cards, tool_execute_query,
      tool_update_card, tool_delete_card, tool_update_dashboard,
      tool_delete_dashboard, tool_add_card_to_dashboard,
      tool_remove_card_from_dashboard, tool_update_dashboard_card,
      tool_create_dashboard_only_card;
    cbn [arg args_object]; cbv zeta;
    rewrite ?bind_invalid_if, ?get_remove_same, ?H0;
    cbn [truthy Z.eqb negb];
    try (eexists; split; reflexivity).
  all: rewrite (get_remove_other "dashboard_id") by discriminate;
    destruct (truthy (get "dashboard_id" a)); cbn [negb];
    rewrite ?bind_invalid_if, ?get_remove_same, ?H0;
    cbn [truthy Z.eqb negb];
    eexists; split; reflexivity.
Qed.

(** ** Further properties of the handlers *)

(** *** The server's own state *)

Lemma ks_ret {A} (a : A) : keeps_server (ret (World:=World) a).
Proof. intros st. reflexivity. Qed.

Lemma ks_throw {A} (e : exn) : keeps_server (throw (World:=World) (A:=A) e).
Proof. intros st. reflexivity. Qed.

Lemma ks_lift {A} (o : outcome A) : keeps_server (lift (World:=World) o).
Proof. intros st. reflexivity. Qed.

Lemma ks_invalid_if (c : bool) (msg : string) :
  keeps_server (invalid_if (World:=World) c msg).
Proof. intros st. destruct c; reflexivity. Qed.

Lemma ks_axios (m : Method) (u : string) (b : value) :
  keeps_server (axios respond m u b).
Proof.
  intros st. unfold axios.
  destruct (respond (world st) (mkRequest m u b)) as [resp w'].
  destruct resp; reflexivity.
Qed.

Lemma ks_bind {A B} (m : M World A) (k : A -> M World B) :
  keeps_server m -> (forall a, keeps_server (k a)) -> keeps_server (bind m k).
Proof.
  intros Hm Hk st. specialize (Hm st). unfold bind.
  destruct (m st) as [[a|e] st1]; cbn [snd] in *.
  - rewrite (Hk a st1). exact Hm.
  - exact Hm.
Qed.

Lemma ks_try_catch {A} (m : M World A) (h : exn -> M World A) :
  keeps_server m -> (forall e, keeps_server (h e)) ->
  keeps_server (try_catch m h).
Proof.
  intros Hm Hh st. specialize (Hm st). unfold try_catch.
  destruct (m st) as [[a|e] st1]; cbn [snd] in *.
  - exact Hm.
  - rewrite (Hh e st1). exact Hm.
Qed.

Ltac ks_tac :=
  cbv zeta;
  repeat first
    [ apply ks_ret
    | apply ks_throw
    | apply ks_invalid_if
    | apply ks_axios
    | apply ks_lift
    | apply ks_bind; [|intros ?]
    | match goal with
      | |- keeps_server (if ?c then _ else _) => destruct c
      | |- keeps_server (match ?e with AxiosErr _ => _ | _ => _ end) => destruct e
      | |- keeps_server (match ?o with Some _ => _ | None => _ end) => destruct o
      end ].

Ltac unfold_tools :=
  unfold run_tool;
  unfold tool_list_dashboards, tool_list_cards, tool_list_databases,
    tool_list_collections, tool_get_database, tool_get_database_metadata,
    tool_execute_card, tool_get_dashboard_cards, tool_execute_query,
    tool_create_card, tool_update_card, tool_delete_card,
    tool_create_dashboard, tool_update_dashboard, tool_delete_dashboard,
    tool_add_card_to_dashboard, tool_remove_card_from_dashboard,
    tool_update_dashboard_card, tool_create_dashboard_only_card,
    axios_get, axios_post, axios_put, axios_delete.

Lemma ks_run_tool (t : Tool) (args : option fields) :
  keeps_server (run_tool respond stringify env t args).
Proof. destruct t; unfold_tools; ks_tac. Qed.

Lemma ks_tool_body (name : string) (args : option fields) :
  keeps_server (tool_body respond stringify env name args).
Proof.
  unfold tool_body, tool_switch. apply ks_try_catch.
  - destruct (tool_of_name name); [apply ks_run_tool|apply ks_ret].
  - intros e. destruct e; first [apply ks_ret | apply ks_throw].
Qed.

Lemma ks_read_body (u : string) :
  keeps_server
    (try_catch (read_resource_body respond stringify u)
       (fun error =>
          match error with
          | AxiosErr e => throw (McpError InternalError (api_error_text e))
          | _ => throw error
          end)).
Proof.
  apply ks_try_catch.
  - unfold read_resource_body, axios_get. ks_tac.
  - intros e. destruct e; apply ks_throw.
Qed.

Lemma ks_list_body :
  keeps_server
    (try_catch
       (bind (axios_get respond "/api/dashboard") (fun d =>
        bind (lift (length_of d)) (fun _ =>
        bind (lift (js_map_to dashboard_resource d)) (fun resources =>
        ret resources))))
       (fun _ => throw list_failed)).
Proof.
  apply ks_try_catch; [unfold axios_get; ks_tac|intros e; apply ks_throw].
Qed.

(** X1.  No tool body writes the session token, the default headers or
    the handler table; and once a credential is in place (an API key, or
    a stored token) no handler does either, whatever the service answers:
    the credential is never dropped, refreshed or replaced. *)
Theorem credential_never_replaced :
  (forall name args (st : State World),
      server_of (snd (tool_body respond stringify env name args st))
      = server_of st)
  /\
  (forall st : State World,
      present (METABASE_API_KEY env) = true \/ truthy (sessionToken st) = true ->
      (forall name args,
          server_of (snd (CallToolHandler respond stringify env name args st))
          = server_of st)
      /\ (forall u,
             server_of (snd (ReadResourceHandler respond stringify env u st))
             = server_of st)
      /\ server_of (snd (ListResourcesHandler respond env st)) = server_of st).
Proof.
  split; [intros name args st; apply ks_tool_body|].
  intros st Hready. pose proof (ensure_ready st Hready) as Hens.
  split; [|split].
  - intros name args. unfold CallToolHandler.
    rewrite (ensure_then _ _ _ Hens). apply ks_tool_body.
  - intros u. unfold ReadResourceHandler.
    rewrite (ensure_then _ _ _ Hens). apply ks_read_body.
  - unfold ListResourcesHandler.
    rewrite (ensure_then _ _ _ Hens). apply ks_list_body.
Qed.

(** *** The calls a handler makes *)

Lemma wi_quiet {A} (P : Request -> Prop) (n : nat) (m : M World A) :
  (forall st, snd (m st) = st) -> within P n m.
Proof.
  intros H st. exists []. rewrite H, app_nil_r.
  split; [reflexivity|]. split; [constructor|simpl; lia].
Qed.

Lemma wi_ret {A} (P : Request -> Prop) (n : nat) (a : A) :
  within P n (ret (World:=World) a).
Proof. apply wi_quiet. reflexivity. Qed.

Lemma wi_throw {A} (P : Request -> Prop) (n : nat) (e : exn) :
  within P n (throw (World:=World) (A:=A) e).
Proof. apply wi_quiet. reflexivity. Qed.

Lemma wi_bind_quiet {A B} (P : Request -> Prop) (n : nat)
    (m : M World A) (k : A -> M World B) :
  (forall st, snd (m st) = st) ->
  (forall a, within P n (k a)) ->
  within P n (bind m k).
Proof.
  intros Hq Hk st. specialize (Hq st). unfold bind.
  destruct (m st) as [[a|e] st1]; cbn [snd] in *; subst st1.
  - apply Hk.
  - exists []. rewrite app_nil_r.
    split; [reflexivity|]. split; [constructor|simpl; lia].
Qed.

Lemma wi_bind_lift {A B} (P : Request -> Prop) (n : nat)
    (o : outcome A) (k : A -> M World B) :
  (forall a, within P n (k a)) -> within P n (bind (lift o) k).
Proof. intros Hk. apply wi_bind_quiet; [reflexivity|exact Hk]. Qed.

Lemma wi_bind_invalid_if {B} (P : Request -> Prop) (n : nat)
    (c : bool) (msg : string) (k : unit -> M World B) :
  (forall a, within P n (k a)) -> within P n (bind (invalid_if c msg) k).
Proof.
  intros Hk. apply wi_bind_quiet; [|exact Hk].
  intros st. destruct c; reflexivity.
Qed.

Lemma wi_bind_axios {B} (P : Request -> Prop) (n : nat)
    (m : Method) (u : string) (b : value) (k : value -> M World B) :
  P (mkRequest m u b) ->
  (forall d, within P n (k d)) ->
  within P (S n) (bind (axios respond m u b) k).
Proof.
  intros HP Hk st.
  destruct (respond (world st) (mkRequest m u b)) as [resp w'] eqn:E.
  rewrite (bind_axios _ _ _ _ _ _ _ E). cbv zeta.
  destruct resp as [d|e].
  - destruct (Hk d (mkState (sessionToken st) (headers st) (handlers st)
                      (trace st ++ [(mkRequest m u b, Resolved d)]) w'))
      as (delta & T & F & L).
    exists ((mkRequest m u b, Resolved d) :: delta).
    rewrite T. cbn [trace]. rewrite <- app_assoc.
    split; [reflexivity|]. split; [constructor; assumption|simpl; lia].
  - exists [(mkRequest m u b, Rejected e)]. cbn [snd trace].
    split; [reflexivity|]. split; [repeat constructor; exact HP|simpl; lia].
Qed.

Lemma wi_try_catch {A} (P : Request -> Prop) (n : nat)
    (m : M World A) (h : exn -> M World A) :
  within P n m -> (forall e st, snd (h e st) = st) ->
  within P n (try_catch m h).
Proof.
  intros Hm Hh st. destruct (Hm st) as (delta & T & F & L).
  exists delta. unfold try_catch.
  destruct (m st) as [[a|e] st1]; cbn [snd] in *.
  - auto.
  - rewrite Hh. auto.
Qed.

Ltac request_ok :=
  first
    [ solve [ split; [cbn; auto|split; [reflexivity|discriminate]] ]
    | solve [ split; [reflexivity|split; [reflexivity|discriminate]] ] ].

Ltac wi_tac :=
  cbv zeta;
  repeat first
    [ apply wi_ret
    | apply wi_throw
    | apply wi_bind_invalid_if; intros ?
    | apply wi_bind_lift; intros ?
    | apply wi_bind_axios; [request_ok|intros ?]
    | match goal with
      | |- within _ _ (if ?c then _ else _) => destruct c
      | |- within _ _ (bind (if ?c then _ else _) _) => destruct c
      | |- within _ _ (bind (bind _ _) _) =>
          let st := fresh "st" in
          intros st; rewrite bind_assoc; revert st
      end ].

Lemma wi_run_tool (t : Tool) (args : option fields) :
  within (tool_request t) (tool_budget t)
         (run_tool respond stringify env t args).
Proof.
  destruct t; unfold_tools; cbn [tool_budget]; wi_tac.
Qed.

(** X2.  Every tool body makes at most the calls of its kind: one call,
    or two for execute_query and the three tools that rewrite a
    dashboard's cards; each call uses a method of the tool (the listing
    and lookup tools only GET), goes to a path under /api/, and never to
    the login endpoint. *)
Theorem tool_calls_disciplined (t : Tool) (args : option fields)
    (st : State World) :
  exists made,
    trace (snd (tool_body respond stringify env (tool_name t) args st))
    = trace st ++ made
    /\ length made <= tool_budget t
    /\ Forall (fun x => tool_request t (fst x)) made.
Proof.
  assert (H : within (tool_request t) (tool_budget t)
                (tool_body respond stringify env (tool_name t) args)).
  { unfold tool_body, tool_switch. rewrite tool_of_name_name.
    apply wi_try_catch; [apply wi_run_tool|].
    intros e s. destruct e; reflexivity. }
  destruct (H st) as (made & T & F & L). exists made. auto.
Qed.

Lemma wi_weaken {A} (P Q : Request -> Prop) (n k : nat) (m : M World A) :
  (forall rq, P rq -> Q rq) -> n <= k -> within P n m -> within Q k m.
Proof.
  intros HPQ Hle H st. destruct (H st) as (delta & T & F & L).
  exists delta. split; [exact T|]. split; [|lia].
  apply Forall_forall. intros x Hx. rewrite Forall_forall in F.
  apply HPQ. exact (F x Hx).
Qed.

Lemma wi_read_body (u : string) :
  within read_request 1
    (try_catch (read_resource_body respond stringify u)
       (fun error =>
          match error with
          | AxiosErr e => throw (McpError InternalError (api_error_text e))
          | _ => throw error
          end)).
Proof.
  apply wi_try_catch; [|intros e s; destruct e; reflexivity].
  unfold read_resource_body, axios_get.
  destruct (match_id "metabase://dashboard/" u);
    [|destruct (match_id "metabase://card/" u);
      [|destruct (match_id "metabase://database/" u)]];
    wi_tac.
Qed.

Lemma wi_list_body :
  within read_request 1
    (try_catch
       (bind (axios_get respond "/api/dashboard") (fun d =>
        bind (lift (length_of d)) (fun _ =>
        bind (lift (js_map_to dashboard_resource d)) (fun resources =>
        ret resources))))
       (fun _ => throw list_failed)).
Proof.
  apply wi_try_catch; [|reflexivity]. unfold axios_get. wi_tac.
Qed.

Lemma wi_tool_body (name : string) (args : option fields) :
  within (fun rq => url rq <> "/api/session") 2
         (tool_body respond stringify env name args).
Proof.
  unfold tool_body, tool_switch.
  apply wi_try_catch; [|intros e s; destruct e; reflexivity].
  destruct (tool_of_name name) as [t|]; [|apply wi_ret].
  apply (wi_weaken (tool_request t) _ (tool_budget t)); [| |apply wi_run_tool].
  - intros rq (_ & _ & H). exact H.
  - destruct t; cbn; lia.
Qed.

(** X3.  Once a credential is in place no handler contacts the login
    endpoint: a tool call makes at most two calls, none of them to
    /api/session, and the two resource handlers make at most one call,
    a GET under /api/.  With an API key this holds from start-up on, for
    any number of requests. *)
Theorem ready_handlers_never_log_in (st : State World) :
  present (METABASE_API_KEY env) = true \/ truthy (sessionToken st) = true ->
  (forall name args,
      exists made,
        trace (snd (CallToolHandler respond stringify env name args st))
        = trace st ++ made
        /\ Forall (fun x => url (fst x) <> "/api/session") made
        /\ length made <= 2)
  /\
  (forall u,
      exists made,
        trace (snd (ReadResourceHandler respond stringify env u st))
        = trace st ++ made
        /\ Forall (fun x => read_request (fst x)) made
        /\ length made <= 1)
  /\
  (exists made,
      trace (snd (ListResourcesHandler respond env st)) = trace st ++ made
      /\ Forall (fun x => read_request (fst x)) made
      /\ length made <= 1).
Proof.
  intros Hready. pose proof (ensure_ready st Hready) as Hens.
  split; [|split].
  - intros name args. unfold CallToolHandler.
    rewrite (ensure_then _ _ _ Hens). apply wi_tool_body.
  - intros u. unfold ReadResourceHandler.
    rewrite (ensure_then _ _ _ Hens). apply wi_read_body.
  - unfold ListResourcesHandler.
    rewrite (ensure_then _ _ _ Hens). apply wi_list_body.
Qed.

(** *** The login in front of every handler *)

Lemma login_rejected (st : State World) (e : AxiosError) (w1 : World) :
  truthy (sessionToken st) = false ->
  respond (world st) (login_request env) = (Rejected e, w1) ->
  getSessionToken respond env st
  = (Throw (McpError InternalError "Failed to authenticate with Metabase"),
     mkState (sessionToken st) (headers st) (handlers st)
             (trace st ++ [(login_request env, Rejected e)]) w1).
Proof.
  intros Hs H. unfold getSessionToken. rewrite Hs.
  unfold login_request in H. unfold try_catch, bind, axios_post.
  rewrite (axios_run _ _ _ _ _ _ H). reflexivity.
Qed.

Lemma login_resolved (st : State World) (d tok : value) (w1 : World) :
  truthy (sessionToken st) = false ->
  respond (world st) (login_request env) = (Resolved d, w1) ->
  prop d "id" = Ok tok ->
  getSessionToken respond env st
  = (Ok tok,
     mkState tok (set "X-Metabase-Session" tok (headers st)) (handlers st)
             (trace st ++ [(login_request env, Resolved d)]) w1).
Proof.
  intros Hs H Hid. unfold getSessionToken. rewrite Hs.
  unfold login_request in H. unfold try_catch, bind, axios_post.
  rewrite (axios_run _ _ _ _ _ _ H). unfold lift. rewrite Hid. reflexivity.
Qed.

(** X4.  In username/password mode with no credential stored, a rejected
    login stops every handler before it does anything else: tools/call
    (whatever the tool and its arguments, valid or not), resources/read
    and resources/list all throw the [internal_error] "Failed to
    authenticate with Metabase", the login post is the only call made,
    and nothing is stored. *)
Theorem rejected_login_stops_every_handler (st : State World)
    (e : AxiosError) (w1 : World) :
  present (METABASE_API_KEY env) = false ->
  truthy (sessionToken st) = false ->
  respond (world st) (login_request env) = (Rejected e, w1) ->
  let failed := McpError InternalError "Failed to authenticate with Metabase" in
  let st1 := mkState (sessionToken st) (headers st) (handlers st)
               (trace st ++ [(login_request env, Rejected e)]) w1 in
  (forall name args,
      CallToolHandler respond stringify env name args st = (Throw failed, st1))
  /\ (forall u,
         ReadResourceHandler respond stringify env u st = (Throw failed, st1))
  /\ ListResourcesHandler respond env st = (Throw failed, st1).
Proof.
  intros Hkey Hs H failed st1.
  assert (Hens : ensure_session respond env st = (Throw failed, st1)).
  { unfold ensure_session. rewrite Hkey. cbn [negb]. unfold bind.
    rewrite (login_rejected st e w1 Hs H). reflexivity. }
  split; [|split]; intros;
    unfold CallToolHandler, ReadResourceHandler, ListResourcesHandler, bind;
    rewrite Hens; reflexivity.
Qed.

(** X5.  In username/password mode with no credential stored, a login
    that resolves with a token runs in front of the handler: every
    handler then behaves as on a server that already holds the token and
    the session header, and the login post is the first call of the
    trace. *)
Theorem granted_login_precedes_handler (st : State World)
    (d tok : value) (w1 : World) :
  present (METABASE_API_KEY env) = false ->
  truthy (sessionToken st) = false ->
  respond (world st) (login_request env) = (Resolved d, w1) ->
  prop d "id" = Ok tok ->
  truthy tok = true ->
  let st1 := mkState tok (set "X-Metabase-Session" tok (headers st))
               (handlers st)
               (trace st ++ [(login_request env, Resolved d)]) w1 in
  (forall name args,
      CallToolHandler respond stringify env name args st
      = CallToolHandler respond stringify env name args st1)
  /\ (forall u,
         ReadResourceHandler respond stringify env u st
         = ReadResourceHandler respond stringify env u st1)
  /\ ListResourcesHandler respond env st = ListResourcesHandler respond env st1
  /\ (forall name args,
         exists made,
           trace (snd (CallToolHandler respond stringify env name args st))
           = trace st ++ (login_request env, Resolved d) :: made
           /\ Forall (fun x => url (fst x) <> "/api/session") made).
Proof.
  intros Hkey Hs H Hid Htok st1.
  assert (Hens : ensure_session respond env st = (Ok tt, st1)).
  { unfold ensure_session. rewrite Hkey. cbn [negb]. unfold bind.
    rewrite (login_resolved st d tok w1 Hs H Hid). reflexivity. }
  assert (Hens1 : ensure_session respond env st1 = (Ok tt, st1)).
  { apply ensure_ready. right. exact Htok. }
  split; [|split; [|split]].
  - intros name args. unfold CallToolHandler.
    rewrite (ensure_then _ _ _ Hens), (ensure_then _ _ _ Hens1). reflexivity.
  - intros u. unfold ReadResourceHandler.
    rewrite (ensure_then _ _ _ Hens), (ensure_then _ _ _ Hens1). reflexivity.
  - unfold ListResourcesHandler.
    rewrite (ensure_then _ _ _ Hens), (ensure_then _ _ _ Hens1). reflexivity.
  - intros name args. unfold CallToolHandler.
    rewrite (ensure_then _ _ _ Hens).
    destruct (wi_tool_body name args st1) as (made & T & F & _).
    exists made. rewrite T. unfold st1. cbn [trace].
    rewrite <- app_assoc. split; [reflexivity|exact F].
Qed.

(** X6.  A login that resolves without a usable token is still reported
    as a success, but leaves no credential: when the reply's [id] is
    missing, empty or otherwise falsy, [getSessionToken] returns that
    value, installs it as the session header, and the next invocation
    posts the login again. *)
Theorem login_without_token_is_not_cached (st : State World)
    (d tok : value) (w1 : World) :
  truthy (sessionToken st) = false ->
  respond (world st) (login_request env) = (Resolved d, w1) ->
  prop d "id" = Ok tok ->
  truthy tok = false ->
  let st1 := mkState tok (set "X-Metabase-Session" tok (headers st))
               (handlers st)
               (trace st ++ [(login_request env, Resolved d)]) w1 in
  getSessionToken respond env st = (Ok tok, st1)
  /\ forall resp w2,
      respond w1 (login_request env) = (resp, w2) ->
      trace (snd (getSessionToken respond env st1))
      = trace st ++ [(login_request env, Resolved d); (login_request env, resp)].
Proof.
  intros Hs H Hid Htok st1.
  split; [exact (login_resolved st d tok w1 Hs H Hid)|].
  intros resp w2 H2.
  destruct resp as [d2|e2].
  - destruct (prop d2 "id") as [tok2|x] eqn:E2.
    + rewrite (login_resolved st1 d2 tok2 w2 Htok H2 E2).
      cbn [snd trace st1]. rewrite <- app_assoc. reflexivity.
    + unfold getSessionToken. cbn [sessionToken st1]. rewrite Htok.
      unfold login_request in H2. unfold try_catch, bind, axios_post.
      rewrite (axios_run _ _ _ st1 _ _ H2). unfold lift. rewrite E2.
      cbn [snd trace throw st1]. rewrite <- app_assoc. reflexivity.
  - rewrite (login_rejected st1 e2 w2 Htok H2).
    cbn [snd trace st1]. rewrite <- app_assoc. reflexivity.
Qed.

(** *** resources/list *)

Lemma map_results_records (recs : list fields) :
  map_results dashboard_resource (map Obj recs)
  = Ok (map (fun dc =>
               mkResource ("metabase://dashboard/" ^^ toStr (get "id" dc))
                          "application/json" (get "name" dc)
                          ("Metabase dashboard: " ^^ toStr (get "name" dc)))
            recs).
Proof.
  induction recs as [|dc r IH]; [reflexivity|].
  cbn [map map_results]. rewrite IH. reflexivity.
Qed.

Lemma map_results_nullish (l : list value) :
  In Null l \/ In Undefined l ->
  map_results dashboard_resource l = Throw TypeError.
Proof.
  induction l as [|x r IH]; intros H.
  - destruct H as [[]|[]].
  - cbn [map_results].
    destruct (dashboard_resource x) as [y|e] eqn:E.
    + cbn [obind]. rewrite IH; [reflexivity|].
      destruct H as [[H|H]|[H|H]]; auto; subst x; discriminate E.
    + cbn [obind]. unfold dashboard_resource in E.
      destruct x; cbn in E; try discriminate E; injection E as <-; reflexivity.
Qed.

(** X7.  Once the credential is resolved, resources/list makes one GET
    to /api/dashboard; when it resolves with an array of dashboard
    records whose ids and names print as they are written (safe
    integers, strings and the other primitives) the reply has one
    descriptor per dashboard, in the order of the response, with URI
    metabase://dashboard/<id>, the JSON content type, the dashboard's
    name, and a description embedding the name. *)
Theorem list_resources_descriptors (st st1 : State World)
    (recs : list fields) (w1 : World) :
  ensure_session respond env st = (Ok tt, st1) ->
  let rq := mkRequest GET "/api/dashboard" Undefined in
  respond (world st1) rq = (Resolved (Arr (map Obj recs)), w1) ->
  Forall (fun dc => prints_exactly (get "id" dc) = true
                    /\ prints_exactly (get "name" dc) = true) recs ->
  let run := ListResourcesHandler respond env st in
  run = (Ok (map (fun dc =>
                    mkResource ("metabase://dashboard/" ^^ toStr (get "id" dc))
                               "application/json" (get "name" dc)
                               ("Metabase dashboard: " ^^ toStr (get "name" dc)))
                 recs),
         mkState (sessionToken st1) (headers st1) (handlers st1)
                 (trace st1 ++ [(rq, Resolved (Arr (map Obj recs)))]) w1)
  /\ (forall rs, fst run = Ok rs ->
                 length rs = length recs
                 /\ map res_name rs = map (get "name") recs).
Proof.
  intros Hens rq H _ run.
  assert (Hrun : run = (Ok (map (fun dc =>
                    mkResource ("metabase://dashboard/" ^^ toStr (get "id" dc))
                               "application/json" (get "name" dc)
                               ("Metabase dashboard: " ^^ toStr (get "name" dc)))
                 recs),
         mkState (sessionToken st1) (headers st1) (handlers st1)
                 (trace st1 ++ [(rq, Resolved (Arr (map Obj recs)))]) w1)).
  { unfold run, ListResourcesHandler. rewrite (ensure_then _ _ _ Hens).
    unfold try_catch. unfold rq in H. call H.
    cbn [length_of js_map_to]. rewrite map_results_records. reflexivity. }
  split; [exact Hrun|].
  intros rs Hrs. rewrite Hrun in Hrs. cbn [fst] in Hrs. injection Hrs as <-.
  rewrite length_map, map_map. split; reflexivity.
Qed.

(** X8.  resources/list reports every failure after credential
    resolution in one way: a rejected GET, a body that is not an array,
    or an array holding a null entry all give the [internal_error]
    "Failed to list Metabase resources"; the service's own message is
    not passed on, and the handler throws nothing else. *)
Theorem list_resources_failure_is_opaque (st st1 : State World)
    (resp : Response) (w1 : World) :
  ensure_session respond env st = (Ok tt, st1) ->
  let rq := mkRequest GET "/api/dashboard" Undefined in
  respond (world st1) rq = (resp, w1) ->
  let run := ListResourcesHandler respond env st in
  let failed :=
    (Throw (A:=list Resource)
           (McpError InternalError "Failed to list Metabase resources"),
     mkState (sessionToken st1) (headers st1) (handlers st1)
             (trace st1 ++ [(rq, resp)]) w1) in
  (forall x, fst run = Throw x ->
             x = McpError InternalError "Failed to list Metabase resources")
  /\ (forall e, resp = Rejected e -> run = failed)
  /\ (forall d, resp = Resolved d -> (forall l, d <> Arr l) -> run = failed)
  /\ (forall l, resp = Resolved (Arr l) ->
                In Null l \/ In Undefined l -> run = failed).
Proof.
  intros Hens rq H run failed.
  assert (Hrun : run
    = try_catch
       (bind (axios_get respond "/api/dashboard") (fun d =>
        bind (lift (length_of d)) (fun _ =>
        bind (lift (js_map_to dashboard_resource d)) (fun resources =>
        ret resources))))
       (fun _ => throw list_failed) st1).
  { unfold run, ListResourcesHandler. apply ensure_then. exact Hens. }
  unfold rq in H.
  split; [|split; [|split]].
  - intros x. rewrite Hrun. unfold try_catch.
    match goal with
    | |- context [let (o, s) := ?m in _] => destruct m as [[a|e] s]
    end; cbn [fst throw]; intros Hx; [discriminate Hx|].
    injection Hx as <-. reflexivity.
  - intros e ->. rewrite Hrun. unfold try_catch. call H. reflexivity.
  - intros d -> Hd. rewrite Hrun. unfold try_catch. call H.
    destruct d; cbn [length_of js_map_to]; step; try reflexivity.
    exfalso. exact (Hd _ eq_refl).
  - intros l -> Hl. rewrite Hrun. unfold try_catch. call H.
    cbn [length_of js_map_to]. step.
    rewrite (map_results_nullish l Hl). reflexivity.
Qed.

(** *** From a listed resource to its reading *)

Lemma digits_of_uint (d : Decimal.uint) :
  all_digits (NilEmpty.string_of_uint d) = true.
Proof. induction d; simpl; auto. Qed.

Lemma Z_to_string_digits (z : Z) :
  (0 <= z)%Z ->
  Z_to_string z <> EmptyString /\ all_digits (Z_to_string z) = true.
Proof.
  intros Hz. unfold Z_to_string.
  assert (H : forall d, NilZero.string_of_uint d <> EmptyString
                        /\ all_digits (NilZero.string_of_uint d) = true).
  { intros d. unfold NilZero.string_of_uint.
    destruct d; (split; [discriminate|]);
      try reflexivity; apply (digits_of_uint (_ d)). }
  destruct z as [|p|p]; cbn [Z.to_int NilZero.string_of_int].
  - apply H.
  - apply H.
  - lia.
Qed.

Lemma Z_to_string_negative (p : positive) :
  match_id "metabase://dashboard/"
           ("metabase://dashboard/" ^^ Z_to_string (Z.neg p)) = None.
Proof.
  unfold match_id. rewrite strip_prefix_app.
  unfold Z_to_string. cbn [Z.to_int NilZero.string_of_int]. reflexivity.
Qed.

(** X9.  The URI that resources/list publishes for a dashboard whose id
    is a non-negative safe integer (below 2^53, so that it is printed as
    its numeral) is one that resources/read accepts: reading it issues
    GET /api/dashboard/<id> and returns that body under the same URI.
    For a negative safe integer the published URI is not readable: the
    read fails with [invalid_request]. *)
Theorem listed_dashboard_is_readable (z : Z) (dc : fields)
    (st st1 : State World) :
  get "id" dc = Num z ->
  safe_integer z ->
  prints_exactly (get "name" dc) = true ->
  ensure_session respond env st = (Ok tt, st1) ->
  exists r,
    dashboard_resource (Obj dc) = Ok r
    /\ ((0 <= z)%Z ->
        forall resp w1,
          let rq := mkRequest GET ("/api/dashboard/" ^^ toStr (Num z)) Undefined in
          respond (world st1) rq = (resp, w1) ->
          ReadResourceHandler respond stringify env (res_uri r) st
          = (match resp with
             | Resolved d =>
                 Ok (mkRead [mkContent (res_uri r) "application/json"
                                       (stringify d)])
             | Rejected e =>
                 Throw (McpError InternalError
                          ("Metabase API error: " ^^ toStr (api_message e)))
             end,
             mkState (sessionToken st1) (headers st1) (handlers st1)
                     (trace st1 ++ [(rq, resp)]) w1))
    /\ ((z < 0)%Z ->
        ReadResourceHandler respond stringify env (res_uri r) st
        = (Throw (McpError InvalidRequest
                    ("Invalid URI format: " ^^ res_uri r)), st1)).
Proof.
  intros Hid _ _ Hens. eexists. split.
  { unfold dashboard_resource. cbn [prop obind]. rewrite Hid. reflexivity. }
  split.
  - intros Hz resp w1 rq Hr. cbn [res_uri].
    destruct (Z_to_string_digits z Hz) as [Hne Hd].
    unfold ReadResourceHandler. rewrite (ensure_then _ _ _ Hens).
    unfold try_catch.
    pose proof (match_kind "dashboard" (toStr (Num z))
                  (or_introl eq_refl) Hne Hd) as Hm.
    cbv zeta in Hm.
    change ("metabase://" ^^ "dashboard" ^^ "/" ^^ toStr (Num z))
      with ("metabase://dashboard/" ^^ toStr (Num z)) in Hm.
    rewrite Hm. unfold axios_get. unfold rq in Hr.
    change ("/api/" ^^ "dashboard" ^^ "/" ^^ toStr (Num z))
      with ("/api/dashboard/" ^^ toStr (Num z)).
    call Hr. destruct resp; reflexivity.
  - intros Hz. cbn [res_uri]. destruct z as [|p|p]; try lia.
    unfold ReadResourceHandler. rewrite (ensure_then _ _ _ Hens).
    unfold try_catch, read_resource_body.
    change (toStr (Num (Z.neg p))) with (Z_to_string (Z.neg p)).
    rewrite Z_to_string_negative.
    replace (match_id "metabase://card/"
               ("metabase://dashboard/" ^^ Z_to_string (Z.neg p)))
      with (@None string) by reflexivity.
    replace (match_id "metabase://database/"
               ("metabase://dashboard/" ^^ Z_to_string (Z.neg p)))
      with (@None string) by reflexivity.
    reflexivity.
Qed.

(** *** Argument validation *)

(** X10.  Every argument that a tool's schema lists as required is
    enforced by the handler: when it is missing, or present but falsy
    (0, the empty string, false, null), the tool throws [invalid_params]
    and makes no HTTP call. *)
Theorem missing_required_argument_rejected (t : Tool) (k : string)
    (args : option fields) (st : State World) :
  In k (required (inputSchema t)) ->
  truthy (arg args k) = false ->
  exists msg,
    tool_body respond stringify env (tool_name t) args st
    = (Throw (McpError InvalidParams msg), st).
Proof.
  intros Hk H0.
  unfold tool_body, tool_switch, try_catch. rewrite tool_of_name_name.
  destruct t; cbn [inputSchema required In] in Hk;
    repeat match type of Hk with
      | _ \/ _ => destruct Hk as [Hk|Hk]
      | False => contradiction
      end;
    subst k; unfold_tools; cbv zeta;
    rewrite ?arg_args_object, ?bind_invalid_if, ?H0;
    repeat match goal with
      | |- context [truthy (arg args ?k)] => destruct (truthy (arg args k))
      end;
    cbn [negb orb]; rewrite ?bind_invalid_if;
    eexists; reflexivity.
Qed.

Lemma Tool_eq_dec (a b : Tool) : {a = b} + {a <> b}.
Proof. decide equality. Defined.

Lemma ote_Ok {A} (a : A) : only_type_error (Ok a).
Proof. intros e H. discriminate H. Qed.

Lemma ote_prop (v : value) (k : string) : only_type_error (prop v k).
Proof.
  intros e. destruct v; simpl; intros H; try discriminate H;
    injection H as <-; reflexivity.
Qed.

Lemma ote_obind {A B} (o : outcome A) (k : A -> outcome B) :
  only_type_error o -> (forall a, only_type_error (k a)) ->
  only_type_error (obind o k).
Proof.
  intros Ho Hk e. destruct o as [a|x]; simpl.
  - apply Hk.
  - intros H. injection H as <-. apply Ho. reflexivity.
Qed.

Lemma ote_map_outcome (f : value -> outcome value) (l : list value) :
  (forall x, only_type_error (f x)) -> only_type_error (map_outcome f l).
Proof.
  intros Hf. induction l as [|x r IH]; simpl; [apply ote_Ok|].
  apply ote_obind; [apply Hf|]. intros y.
  apply ote_obind; [exact IH|]. intros ys. apply ote_Ok.
Qed.

Lemma ote_js_map (f : value -> outcome value) (v : value) :
  (forall x, only_type_error (f x)) -> only_type_error (js_map f v).
Proof.
  intros Hf. destruct v; simpl;
    try (intros e H; injection H as <-; reflexivity).
  apply ote_map_outcome. exact Hf.
Qed.

Lemma ote_js_opt_map (f : value -> outcome value) (v : value) :
  (forall x, only_type_error (f x)) -> only_type_error (js_opt_map f v).
Proof.
  intros Hf. unfold js_opt_map.
  destruct v; try apply ote_Ok;
    (apply ote_obind; [apply ote_js_map; exact Hf|]);
    intros ys; apply ote_Ok.
Qed.

Ltac ote_tac :=
  repeat first
    [ apply ote_Ok
    | apply ote_prop
    | apply ote_obind; [|intros ?]
    | apply ote_js_opt_map; intros ?
    | apply ote_js_map; intros ?
    | match goal with
      | |- only_type_error (if ?c then _ else _) => destruct c
      end ].

Lemma ote_reshape (dc : value) : only_type_error (reshape_dashcard dc).
Proof. unfold reshape_dashcard. ote_tac. Qed.

Lemma ote_filter_field (field : value) : only_type_error (filter_field field).
Proof. unfold filter_field. ote_tac. Qed.

Lemma ote_filter_table (table : value) : only_type_error (filter_table table).
Proof. unfold filter_table. ote_tac; try apply ote_filter_field. Qed.

Lemma ote_filter_metadata (data : value) :
  only_type_error (filter_metadata data).
Proof. unfold filter_metadata. ote_tac; try apply ote_filter_table. Qed.

Lemma ote_update_dashcard (i pm : value) (uf : fields) (dc : value) :
  only_type_error (update_dashcard i pm uf dc).
Proof. unfold update_dashcard. ote_tac; try apply ote_reshape. Qed.

Lemma np_ret {A} (a : A) : no_protocol_error (ret (World:=World) a).
Proof. intros st c msg H. discriminate H. Qed.

Lemma np_lift {A} (o : outcome A) :
  only_type_error o -> no_protocol_error (lift (World:=World) o).
Proof.
  intros Ho st c msg H. cbn in H. apply Ho in H. discriminate H.
Qed.

Lemma np_axios (m : Method) (u : string) (b : value) :
  no_protocol_error (axios respond m u b).
Proof.
  intros st c msg. unfold axios.
  destruct (respond (world st) (mkRequest m u b)) as [resp w'].
  destruct resp; discriminate.
Qed.

Lemma np_bind {A B} (m : M World A) (k : A -> M World B) :
  no_protocol_error m -> (forall a, no_protocol_error (k a)) ->
  no_protocol_error (bind m k).
Proof.
  intros Hm Hk st c msg. specialize (Hm st c msg). unfold bind.
  destruct (m st) as [[a|e] st1]; cbn [fst] in *.
  - apply Hk.
  - intros H. apply Hm. injection H as ->. reflexivity.
Qed.

Ltac np_tac :=
  cbv zeta;
  repeat first
    [ apply np_ret
    | apply np_axios
    | apply np_bind; [|intros ?]
    | apply np_lift
    | match goal with
      | |- no_protocol_error (if ?c then _ else _) => destruct c
      end ];
  try first [ apply ote_prop
            | apply ote_filter_metadata
            | apply ote_js_map; intros ?;
              first [apply ote_reshape | apply ote_update_dashcard] ].

Lemma vf_io {A} (m : M World A) : no_protocol_error m -> validates_first m.
Proof. intros H st c msg E. exfalso. exact (H st c msg E). Qed.

Lemma vf_invalid_if {B} (c : bool) (msg : string) (k : unit -> M World B) :
  validates_first (k tt) -> validates_first (bind (invalid_if c msg) k).
Proof.
  intros Hk st c' msg'. rewrite bind_invalid_if. destruct c.
  - cbn [fst snd]. intros H. injection H as <- _. split; reflexivity.
  - apply Hk.
Qed.

Ltac vf_tac :=
  cbv zeta;
  repeat first
    [ apply vf_invalid_if
    | match goal with
      | |- validates_first (if ?c then _ else _) => destruct c
      end ];
  try (apply vf_io; np_tac).

Lemma vf_run_tool (t : Tool) (args : option fields) :
  t <> execute_query ->
  validates_first (run_tool respond stringify env t args).
Proof.
  intros Ht. destruct t; try contradiction; unfold_tools; vf_tac.
Qed.

Lemma execute_query_protocol_error (args : option fields) (st : State World)
    (c : ErrorCode) (msg : string) :
  let run := tool_execute_query respond stringify args st in
  fst run = Throw (McpError c msg) ->
  c = InvalidParams
  /\ (snd run = st
      \/ (msg = "Collection name is required for MongoDB queries"
          /\ exists d w1,
              snd run
              = mkState (sessionToken st) (headers st) (handlers st)
                  (trace st ++ [(mkRequest GET ("/api/database/"
                                   ^^ toStr (arg args "database_id")) Undefined,
                                 Resolved d)]) w1)).
Proof.
  intros run. unfold run, tool_execute_query. cbv zeta.
  rewrite bind_invalid_if.
  destruct (negb (truthy (arg args "database_id"))).
  { cbn [fst snd]. intros H. injection H as <- _. split; [reflexivity|].
    left. reflexivity. }
  rewrite bind_invalid_if.
  destruct (negb (truthy (arg args "query"))).
  { cbn [fst snd]. intros H. injection H as <- _. split; [reflexivity|].
    left. reflexivity. }
  unfold axios_get.
  destruct (respond (world st)
              (mkRequest GET ("/api/database/" ^^ toStr (arg args "database_id"))
                         Undefined)) as [resp w1] eqn:E.
  rewrite (bind_axios _ _ _ _ _ _ _ E). cbv zeta.
  destruct resp as [d|e]; [|discriminate].
  rewrite bind_lift.
  destruct (prop d "engine") as [engine|x] eqn:Ee.
  2:{ cbn [fst]. intros H. injection H as ->.
      pose proof (ote_prop d "engine" _ Ee) as Hx. discriminate Hx. }
  destruct (strict_eq engine (Str "mongo")).
  - rewrite bind_assoc, bind_invalid_if.
    destruct (negb (truthy (arg args "collection"))).
    + cbn [fst snd]. intros H. injection H as <- <-. split; [reflexivity|].
      right. split; [reflexivity|]. exists d, w1. reflexivity.
    + rewrite bind_ret. intros H. exfalso. revert H.
      apply (np_bind (axios_post respond "/api/dataset" _) _);
        [apply np_axios|intros ?; apply np_ret].
  - rewrite bind_ret. intros H. exfalso. revert H.
    apply (np_bind (axios_post respond "/api/dataset" _) _);
      [apply np_axios|intros ?; apply np_ret].
Qed.

(** X11.  The only protocol error a tool call throws (once the
    credential is resolved) is [invalid_params], and it is thrown before
    any HTTP call, the state untouched, with one exception:
    execute_query asks for the collection of a document-store database
    only after its GET of the database record has resolved. *)
Theorem validation_precedes_calls (name : string) (args : option fields)
    (st : State World) (c : ErrorCode) (msg : string) :
  let run := tool_body respond stringify env name args st in
  fst run = Throw (McpError c msg) ->
  c = InvalidParams
  /\ (snd run = st
      \/ (name = "execute_query"
          /\ msg = "Collection name is required for MongoDB queries"
          /\ exists d w1,
              snd run
              = mkState (sessionToken st) (headers st) (handlers st)
                  (trace st ++ [(mkRequest GET ("/api/database/"
                                   ^^ toStr (arg args "database_id")) Undefined,
                                 Resolved d)]) w1)).
Proof.
  intros run. unfold run, tool_body, try_catch, tool_switch.
  destruct (tool_of_name name) as [t|] eqn:Et; [|discriminate].
  apply tool_of_name_some in Et.
  assert (Hcatch : forall (o : outcome CallToolResult) (s : State World),
            fst (match o with
                 | Ok a => (Ok a, s)
                 | Throw e =>
                     match e with
                     | AxiosErr e0 => ret (error_reply (api_error_text e0))
                     | _ => throw e
                     end s
                 end) = Throw (McpError c msg) ->
            o = Throw (McpError c msg)
            /\ snd (match o with
                    | Ok a => (Ok a, s)
                    | Throw e =>
                        match e with
                        | AxiosErr e0 => ret (error_reply (api_error_text e0))
                        | _ => throw e
                        end s
                    end) = s).
  { intros o s. destruct o as [a|e]; [discriminate|].
    destruct e; cbn [fst snd ret throw]; intros H; try discriminate H.
    split; [exact H|reflexivity]. }
  destruct (run_tool respond stringify env t args st) as [o s] eqn:Er.
  intros H. apply Hcatch in H. destruct H as [Ho Hs]. rewrite Hs. subst o.
  destruct (Tool_eq_dec t execute_query) as [->|Hne].
  - pose proof (execute_query_protocol_error args st c msg) as Hq.
    cbv zeta in Hq. unfold run_tool in Er. rewrite Er in Hq.
    destruct (Hq eq_refl) as [Hc [Hst|(Hm & d & w1 & Hst)]].
    + split; [exact Hc|]. left. exact Hst.
    + split; [exact Hc|]. right. split; [exact Et|]. split; [exact Hm|].
      exists d, w1. exact Hst.
  - pose proof (vf_run_tool t args Hne st c msg) as Hv.
    rewrite Er in Hv. destruct (Hv eq_refl) as [Hc Hst].
    split; [exact Hc|]. left. exact Hst.
Qed.

(** *** Arguments that change nothing *)

(** X12.  Apart from the three update tools, a tool reads only arguments
    its schema declares: removing any other argument from a call leaves
    the tool's whole behaviour unchanged.  The same holds for
    [dashboard_tab_id] of add_card_to_dashboard, which the schema
    declares but the handler never reads. *)
Theorem undeclared_arguments_ignored (t : Tool) (k : string) (a : fields) :
  t <> update_card -> t <> update_dashboard -> t <> update_dashboard_card ->
  ~ In k (map fst (properties (inputSchema t)))
  \/ (t = add_card_to_dashboard /\ k = "dashboard_tab_id") ->
  run_tool respond stringify env t (Some (remove k a))
  = run_tool respond stringify env t (Some a).
Proof.
  intros H1 H2 H3 Hk.
  assert (Hget : forall k',
            In k' (map fst (properties (inputSchema t))) ->
            (t = add_card_to_dashboard -> k' <> "dashboard_tab_id") ->
            get k' (remove k a) = get k' a).
  { intros k' Hin Htab. apply get_remove_other.
    destruct Hk as [Hk|[Ht ->]].
    - intros E. apply Hk. rewrite <- E. exact Hin.
    - apply Htab. exact Ht. }
  destruct t; try contradiction; unfold_tools;
    unfold createCardBody, createDashboardBody; cbn [arg args_object];
    cbn [inputSchema properties map fst] in Hget;
    repeat match goal with
      | |- context [get ?k' (remove k a)] =>
          rewrite (Hget k')
            by (first [solve [cbn; auto 12] | solve [intros _; discriminate]])
      end;
    reflexivity.
Qed.

(** X13.  execute_query reads [collection] only for a document-store
    database: whenever the database record does not come back with
    engine "mongo", the call behaves exactly as the same call without
    the collection argument. *)
Theorem collection_ignored_unless_mongo (a : fields) (st : State World) :
  (forall d w1,
      respond (world st)
        (mkRequest GET ("/api/database/" ^^ toStr (get "database_id" a))
                   Undefined)
      = (Resolved d, w1) ->
      prop d "engine" <> Ok (Str "mongo")) ->
  tool_body respond stringify env "execute_query" (Some (remove "collection" a)) st
  = tool_body respond stringify env "execute_query" (Some a) st.
Proof.
  intros Hsql.
  unfold tool_body, tool_switch, try_catch.
  change (tool_of_name "execute_query") with (Some execute_query).
  unfold run_tool, tool_execute_query. cbn [arg]. cbv zeta.
  rewrite (get_remove_other "database_id" "collection") by discriminate.
  rewrite (get_remove_other "query" "collection") by discriminate.
  rewrite (get_remove_other "native_parameters" "collection") by discriminate.
  rewrite !bind_invalid_if.
  destruct (negb (truthy (get "database_id" a))); [reflexivity|].
  destruct (negb (truthy (get "query" a))); [reflexivity|].
  unfold axios_get.
  destruct (respond (world st)
              (mkRequest GET ("/api/database/" ^^ toStr (get "database_id" a))
                         Undefined)) as [resp w1] eqn:E.
  rewrite !(bind_axios _ _ _ _ _ _ _ E). cbv zeta.
  destruct resp as [d|e]; [|reflexivity].
  rewrite !bind_lift.
  specialize (Hsql d w1 eq_refl).
  destruct (prop d "engine") as [engine|x]; [|reflexivity].
  rewrite strict_eq_not_mongo; [reflexivity|].
  intros ->. apply Hsql. reflexivity.
Qed.

(** *** get_database_metadata *)








(** *** update_dashboard_card *)



(** *** create_dashboard_only_card *)

(** X16.  create_dashboard_only_card with its five required arguments
    reads the dashboard and writes back its K dashcards in canonical form
    followed by one new entry: identity -1, a null card reference, the
    given position and size (row and column 0, width and height 4 by
    default), and visualization settings that keep every supplied setting
    and add [virtual_card] with the card's name, display, settings and
    query. *)
Theorem dashboard_only_card_is_embedded (st : State World)
    (a : fields) (d v : value) (recs : list fields) (w1 : World) :
  let dashboard_id := get "dashboard_id" a in
  let settings := get "visualization_settings" a in
  let run :=
    tool_body respond stringify env "create_dashboard_only_card" (Some a) st in
  let lookup :=
    mkRequest GET ("/api/dashboard/" ^^ toStr dashboard_id) Undefined in
  let embedded :=
    Obj [("name", get "name" a); ("display", get "display" a);
         ("visualization_settings", settings);
         ("dataset_query", get "dataset_query" a)] in
  let entry :=
    [("id", Num (-1)); ("card_id", Null);
     ("row", default_to (Num 0) (get "row" a));
     ("col", default_to (Num 0) (get "col" a));
     ("size_x", default_to (Num 4) (get "size_x" a));
     ("size_y", default_to (Num 4) (get "size_y" a));
     ("series", Arr []); ("parameter_mappings", Arr []);
     ("visualization_settings",
      Obj (set "virtual_card" embedded (spread settings)))] in
  let cards := map canonical recs ++ [Obj entry] in
  let put :=
    mkRequest PUT ("/api/dashboard/" ^^ toStr dashboard_id ^^ "/cards")
              (Obj [("cards", Arr cards)]) in
  truthy dashboard_id = true ->
  truthy (get "name" a) = true ->
  truthy (get "dataset_query" a) = true ->
  truthy (get "display" a) = true ->
  truthy settings = true ->
  respond (world st) lookup = (Resolved d, w1) ->
  prop d "dashcards" = Ok v ->
  or_else v (Arr []) = Arr (map Obj recs) ->
  (forall resp w2,
      respond w1 put = (resp, w2) ->
      run = (match resp with
             | Resolved r => Ok (json_reply stringify r)
             | Rejected e => Ok (error_reply (api_error_text e))
             end,
             mkState (sessionToken st) (headers st) (handlers st)
                     (trace st ++ [(lookup, Resolved d); (put, resp)]) w2))
  /\ length cards = length recs + 1
  /\ opt_prop (get "visualization_settings" entry) "virtual_card" = embedded
  /\ (forall k, k <> "virtual_card" ->
                opt_prop (get "visualization_settings" entry) k
                = get k (spread settings)).
Proof.
  intros dashboard_id settings run lookup embedded entry cards put
         Hd Hn Hq Hdi Hs Hget Hdcs Hrecs.
  split; [|split; [|split]].
  - intros resp w2 Hput. unfold run.
    unfold tool_body, tool_switch, try_catch.
    change (tool_of_name "create_dashboard_only_card")
      with (Some create_dashboard_only_card).
    unfold run_tool, tool_create_dashboard_only_card. cbn [args_object].
    cbv zeta. fold dashboard_id settings.
    rewrite Hd, Hn, Hq, Hdi, Hs. step.
    unfold lookup in Hget. call Hget.
    rewrite Hdcs, Hrecs, reshape_records. step.
    unfold virtualCard. unfold put, cards, entry, embedded in Hput. call Hput.
    destruct resp; step; rewrite <- app_assoc; reflexivity.
  - unfold cards. rewrite length_app, length_map. reflexivity.
  - cbn [get entry String.eqb Ascii.eqb Bool.eqb opt_prop].
    apply get_set_same.
  - intros k Hk. cbn [get entry String.eqb Ascii.eqb Bool.eqb opt_prop].
    apply get_set_other. exact Hk.
Qed.

(** *** create_dashboard *)


(** *** Canonical dashcards *)

Lemma or_else_twice (x dflt : value) :
  or_else (or_else x dflt) dflt = or_else x dflt.
Proof.
  unfold or_else. destruct (truthy x) eqn:E; [rewrite E; reflexivity|].
  destruct (truthy dflt); reflexivity.
Qed.

(** X18.  Reshaping a dashcard is stable: the canonical record has
    exactly the nine canonical fields, its series, visualization
    settings and parameter mappings are never missing, and reshaping a
    canonical record gives the same record, so a list written by one
    placement tool is written back unchanged by the next. *)
Theorem reshape_dashcard_is_stable (dc r : value) :
  reshape_dashcard dc = Ok r ->
  reshape_dashcard r = Ok r
  /\ keys (spread r)
     = ["id"; "card_id"; "row"; "col"; "size_x"; "size_y"; "series";
        "visualization_settings"; "parameter_mappings"]
  /\ truthy (opt_prop r "series") = true
  /\ truthy (opt_prop r "visualization_settings") = true
  /\ truthy (opt_prop r "parameter_mappings") = true
  /\ (forall fs, dc = Obj fs -> r = canonical fs).
Proof.
  intros H.
  assert (Hobj : forall fs, dc = Obj fs -> r = canonical fs).
  { intros fs ->. cbn in H. injection H as <-. reflexivity. }
  assert (Hshape : exists fs, r = canonical fs).
  { destruct dc; cbn in H; try discriminate H.
    5: { exists fields0. apply Hobj. reflexivity. }
    all: injection H as <-; exists []; reflexivity. }
  destruct Hshape as (fs & Hr).
  split; [|split; [|split; [|split; [|split; [|exact Hobj]]]]]; rewrite Hr.
  - unfold canonical, reshape_dashcard.
    cbn [prop obind get String.eqb Ascii.eqb Bool.eqb].
    rewrite !or_else_twice. reflexivity.
  - reflexivity.
  - cbn. unfold or_else. destruct (truthy (get "series" fs)) eqn:E; auto.
  - cbn. unfold or_else.
    destruct (truthy (get "visualization_settings" fs)) eqn:E; auto.
  - cbn. unfold or_else.
    destruct (truthy (get "parameter_mappings" fs)) eqn:E; auto.
Qed.

(** *** A resolved call without a body *)

(** X19.  The eight tools that read a field of a response do not guard
    against an empty body: if the service resolves their first call with
    null, the tool neither replies nor reports the failure in band, it
    throws a TypeError out of the handler, after at most that one call
    (for create_card and create_dashboard, after the POST was made).
    The only other outcome is the [invalid_params] of a failed
    validation. *)
Theorem null_body_escapes_as_type_error (t : Tool) (args : option fields)
    (st : State World) :
  reads_body t = true ->
  (forall rq, exists w1, respond (world st) rq = (Resolved Null, w1)) ->
  let run := tool_body respond stringify env (tool_name t) args st in
  (fst run = Throw TypeError
   /\ exists rq w1,
       snd run = mkState (sessionToken st) (headers st) (handlers st)
                         (trace st ++ [(rq, Resolved Null)]) w1)
  \/ (exists msg, run = (Throw (McpError InvalidParams msg), st)).
Proof.
  intros Ht Hnull run. unfold run, tool_body, tool_switch, try_catch.
  rewrite tool_of_name_name.
  destruct t; try discriminate Ht; unfold_tools; cbv zeta;
    repeat (rewrite bind_invalid_if;
            match goal with
            | |- context [if ?c then (Throw _, _) else _] =>
                destruct c; [right; eexists; reflexivity|]
            end);
    match goal with
    | |- context [bind (axios respond ?m ?u ?b) ?k st] =>
        destruct (Hnull (mkRequest m u b)) as [w1 Hr];
        rewrite (bind_axios m u b k st _ _ Hr)
    end;
    left; (split; [reflexivity|eexists; eexists; reflexivity]).
Qed.

(** *** Start-up state *)

(** X20.  When the environment check passes, the constructor's own
    safeguard never fires, and the server starts in the mode the API key
    decides: with a key the credential is the fixed marker and the key
    is installed as [X-API-Key], whatever username and password say;
    without one the credential is unset and no key header exists.  No
    session header is installed and no call has been made. *)
Theorem startup_selects_mode (w : World) :
  check_env env = Ok tt ->
  exists st,
    startup env w = Ok st
    /\ constructor env w = Ok st
    /\ trace st = []
    /\ get "X-Metabase-Session" (headers st) = Undefined
    /\ get "Content-Type" (headers st) = Str "application/json"
    /\ (present (METABASE_API_KEY env) = true ->
        sessionToken st = Str "api_key_used"
        /\ get "X-API-Key" (headers st) = env_value (METABASE_API_KEY env)
        /\ ensure_session respond env st = (Ok tt, st))
    /\ (present (METABASE_API_KEY env) = false ->
        sessionToken st = Null
        /\ get "X-API-Key" (headers st) = Undefined).
Proof.
  unfold startup, check_env, constructor. intros Hchk.
  destruct (present (METABASE_URL env)); [|discriminate Hchk].
  destruct (present (METABASE_API_KEY env)) eqn:Hk.
  - eexists. split; [reflexivity|]. split; [reflexivity|].
    repeat split; try discriminate.
    unfold ensure_session. rewrite Hk. reflexivity.
  - destruct (present (METABASE_USERNAME env)); [|discriminate Hchk].
    destruct (present (METABASE_PASSWORD env)); [|discriminate Hchk].
    eexists. split; [reflexivity|]. split; [reflexivity|].
    repeat split; discriminate.
Qed.

(** *** Fallbacks *)


(** X22.  Optional arguments are defaulted by truthiness, so a supplied
    but falsy value counts as absent: list_cards asks for the filter
    "all" unless [f] is a non-empty value, which it puts into the query
    string as it is; execute_card posts [{parameters: {}}] unless
    [parameters] is truthy. *)
Theorem falsy_optionals_take_defaults (st : State World)
    (args : option fields) (resp : Response) (w1 : World) :
  let run name := tool_body respond stringify env name args st in
  let done rq :=
    (match resp with
     | Resolved d => Ok (json_reply stringify d)
     | Rejected e => Ok (error_reply (api_error_text e))
     end,
     mkState (sessionToken st) (headers st) (handlers st)
             (trace st ++ [(rq, resp)]) w1) in
  let list_rq :=
    mkRequest GET
      ("/api/card?f=" ^^ (if truthy (arg args "f")
                          then toStr (arg args "f") else "all"))
      Undefined in
  let exec_rq :=
    mkRequest POST ("/api/card/" ^^ toStr (arg args "card_id") ^^ "/query")
      (Obj [("parameters",
             if truthy (arg args "parameters")
             then arg args "parameters" else Obj [])]) in
  (respond (world st) list_rq = (resp, w1) -> run "list_cards" = done list_rq)
  /\
  (truthy (arg args "card_id") = true ->
   respond (world st) exec_rq = (resp, w1) ->
   run "execute_card" = done exec_rq).
Proof.
  intros run done list_rq exec_rq. split.
  - intros Hr. unfold run, done, list_rq in *.
    unfold tool_body, tool_switch, try_catch.
    change (tool_of_name "list_cards") with (Some list_cards).
    unfold run_tool, tool_list_cards, or_else. cbv zeta.
    destruct (truthy (arg args "f")); call Hr; destruct resp; reflexivity.
  - intros Hid Hr. unfold run, done, exec_rq in *.
    unfold tool_body, tool_switch, try_catch.
    change (tool_of_name "execute_card") with (Some execute_card).
    unfold run_tool, tool_execute_card, or_else. cbv zeta.
    rewrite Hid. step.
    destruct (truthy (arg args "parameters")); call Hr;
      destruct resp; reflexivity.
Qed.

(** *** The hard-delete flag *)

Lemma truthy_default_false (h : value) :
  truthy (default_to (Bool false) h) = truthy h.
Proof. destruct h; reflexivity. Qed.

(** X23.  The delete tools test [hard_delete] by truthiness, not against
    [true]: any truthy value (a non-empty string such as "false", a
    non-zero number, an object) deletes permanently with one DELETE, and
    any falsy value (false, null, 0, the empty string, or no value)
    archives with one PUT of [{archived: true}]. *)
Theorem hard_delete_is_decided_by_truthiness (t : Tool)
    (idk api label : string) (st : State World) (args : option fields)
    (resp : Response) (w1 : World) :
  delete_target t = Some (idk, api, label) ->
  let id := arg args idk in
  let hard := arg args "hard_delete" in
  let run := tool_body respond stringify env (tool_name t) args st in
  let after rq :=
    mkState (sessionToken st) (headers st) (handlers st)
            (trace st ++ [(rq, resp)]) w1 in
  let destroy := mkRequest DELETE (api ^^ toStr id) Undefined in
  let archive :=
    mkRequest PUT (api ^^ toStr id) (Obj [("archived", Bool true)]) in
  truthy id = true ->
  (truthy hard = true ->
   respond (world st) destroy = (resp, w1) ->
   snd run = after destroy)
  /\
  (truthy hard = false ->
   respond (world st) archive = (resp, w1) ->
   snd run = after archive).
Proof.
  intros Ht id hard run after destroy archive Hid.
  assert (Hrun : run = tool_body respond stringify env (tool_name t) args st)
    by reflexivity.
  unfold tool_body, tool_switch, try_catch in Hrun.
  rewrite tool_of_name_name in Hrun.
  destruct t; try discriminate; injection Ht as <- <- <-;
    unfold run_tool, tool_delete_card, tool_delete_dashboard in Hrun;
    rewrite !arg_args_object in Hrun; fold id hard in Hrun;
    rewrite Hid, bind_invalid_if, truthy_default_false in Hrun;
    cbn [negb] in Hrun.
  all: split; intros Hh Hr; rewrite Hh in Hrun;
    unfold destroy, archive, after in *; revert Hrun; call Hr;
    intros ->; destruct resp; reflexivity.
Qed.

(** *** The shape of every tool reply *)

Lemma rt_ret_text (s : string) :
  replies_text (ret (World:=World) (text_reply s)).
Proof. intros st r H. injection H as <-. exists s. reflexivity. Qed.

Lemma rt_bind {A} (m : M World A) (k : A -> M World CallToolResult) :
  (forall a, replies_text (k a)) -> replies_text (bind m k).
Proof.
  intros Hk st r. unfold bind.
  destruct (m st) as [[a|e] st1]; [apply Hk|discriminate].
Qed.

Ltac rt_tac :=
  cbv zeta;
  repeat first
    [ apply rt_ret_text
    | apply rt_bind; intros ?
    | match goal with
      | |- replies_text (if ?c then _ else _) => destruct c
      end ].

Lemma rt_run_tool (t : Tool) (args : option fields) :
  replies_text (run_tool respond stringify env t args).
Proof. destruct t; unfold_tools; unfold json_reply; rt_tac. Qed.

(** X24.  Every reply of tools/call is a single content item of type
    text.  It carries [isError: true] exactly when the tool name is
    unknown or one of the tool's HTTP calls was rejected; a reply that is
    not flagged comes from a known tool all of whose calls resolved. *)
Theorem tool_reply_shape (name : string) (args : option fields)
    (st : State World) (r : CallToolResult) :
  let run := tool_body respond stringify env name args st in
  fst run = Ok r ->
  (exists s, content r = [mkText "text" s])
  /\ exists made,
      trace (snd run) = trace st ++ made
      /\ (isError r = true <->
          tool_of_name name = None
          \/ exists rq e, In (rq, Rejected e) made).
Proof.
  intros run. unfold run, tool_body, try_catch.
  destruct (tool_switch_fail_fast name args st) as (made & T & R & X).
  unfold tool_switch in *.
  destruct (tool_of_name name) as [t|] eqn:Et.
  - pose proof (rt_run_tool t args st) as Ht.
    destruct (run_tool respond stringify env t args st) as [[a|e] st1];
      cbn [fst snd] in *.
    + intros H. injection H as <-.
      destruct (Ht a eq_refl) as (s & ->).
      split; [exists s; reflexivity|].
      exists made. split; [exact T|]. cbn [isError text_reply]. split.
      * discriminate.
      * intros [H|(rq & e & Hin)]; [discriminate H|].
        specialize (R _ _ Hin). discriminate R.
    + destruct e; cbn [fst snd ret throw]; intros H; try discriminate H.
      injection H as <-.
      split; [eexists; reflexivity|].
      exists made. split; [exact T|]. cbn [isError error_reply]. split.
      * intros _. right. destruct (X e eq_refl) as [rq Hin].
        exists rq, e. exact Hin.
      * reflexivity.
  - cbn [fst snd ret] in *. intros H. injection H as <-.
    split; [eexists; reflexivity|].
    exists made. split; [exact T|]. cbn [isError error_reply]. split; auto.
Qed.

(** *** No partial rewrite *)

Lemma map_outcome_nullish (f : value -> outcome value) (l : list value) :
  (forall x, only_type_error (f x)) ->
  f Null = Throw TypeError -> f Undefined = Throw TypeError ->
  In Null l \/ In Undefined l ->
  map_outcome f l = Throw TypeError.
Proof.
  intros Hote Hn Hu. induction l as [|x r IH]; intros H.
  - destruct H as [[]|[]].
  - cbn [map_outcome]. destruct (f x) as [y|e] eqn:E; cbn [obind].
    + rewrite IH; [reflexivity|].
      destruct H as [[H|H]|[H|H]]; auto; subst x; congruence.
    + rewrite (Hote x e E). reflexivity.
Qed.

Lemma js_map_malformed (f : value -> outcome value) (v : value) :
  (forall x, only_type_error (f x)) ->
  f Null = Throw TypeError -> f Undefined = Throw TypeError ->
  (forall l, v = Arr l -> In Null l \/ In Undefined l) ->
  js_map f v = Throw TypeError.
Proof.
  intros Hote Hn Hu Hbad. destruct v; try reflexivity.
  cbn [js_map]. apply map_outcome_nullish; auto.
Qed.

(** X25.  The three tools that rewrite a dashboard's cards build the
    whole list before they write: when the dashboard comes back with a
    [dashcards] value that is not a list, or a list holding a null
    entry, the tool fails without issuing the PUT, so a malformed read
    never leads to a partial write. *)
Theorem malformed_dashcards_write_nothing (t : Tool) (a : fields)
    (st : State World) (d v : value) (w1 : World) :
  rewrites_cards t = true ->
  respond (world st)
    (mkRequest GET ("/api/dashboard/" ^^ toStr (get "dashboard_id" a)) Undefined)
  = (Resolved d, w1) ->
  prop d "dashcards" = Ok v ->
  truthy v = true ->
  (forall l, v = Arr l -> In Null l \/ In Undefined l) ->
  let run := tool_body respond stringify env (tool_name t) (Some a) st in
  calls PUT (trace (snd run)) = calls PUT (trace st)
  /\ forall r, fst run <> Ok r.
Proof.
  intros Ht Hget Hdcs Htr Hbad run.
  unfold run, tool_body, tool_switch, try_catch. rewrite tool_of_name_name.
  assert (Hv : or_else v (Arr []) = v) by (unfold or_else; rewrite Htr; reflexivity).
  destruct t; try discriminate Ht; unfold_tools; cbn [args_object]; cbv zeta;
    repeat (rewrite bind_invalid_if;
            match goal with
            | |- context [if ?c then (Throw _, _) else _] =>
                destruct c; [split; [reflexivity|discriminate]|]
            end);
    rewrite (bind_axios _ _ _ _ _ _ _ Hget); cbv zeta;
    rewrite bind_lift, Hdcs, Hv, bind_lift;
    rewrite js_map_malformed;
    try (cbn [fst snd trace throw];
         split; [apply calls_snoc_other; reflexivity|discriminate]);
    try exact Hbad; try reflexivity;
    intros x; first [apply ote_reshape | apply ote_update_dashcard].
Qed.

End Properties.

(** * Concrete runs *)

(** C3: a username without a password, next to an API key, is a partial
    pair, and both modes complete are two modes; the server starts in
    both cases, with its handlers registered. *)
Lemma partial_pair_with_api_key_starts :
  let e1 := mkEnv (Some "http://mb") (Some "ada") None (Some "mb_key") in
  let e2 := mkEnv (Some "http://mb") (Some "ada") (Some "s3cret") (Some "mb_key") in
  (present (METABASE_USERNAME e1) = true
   /\ present (METABASE_PASSWORD e1) = false
   /\ startup e1 ([] : Script) = Ok (key_state [])
   /\ registered (startup e1 ([] : Script)) = all_handlers)
  /\
  (present (METABASE_API_KEY e2) = true
   /\ present (METABASE_USERNAME e2) = true
   /\ present (METABASE_PASSWORD e2) = true
   /\ startup e2 ([] : Script) = Ok (key_state [])).
Proof. repeat split. Qed.

Lemma startup_fails_iff_no_complete_mode_witness :
  exists st, startup login_env ([] : Script) = Ok st /\ handlers st = all_handlers.
Proof.
  apply (proj2 (startup_fails_iff_no_complete_mode login_env ([] : Script))).
  split; [reflexivity|]. right. split; reflexivity.
Defined.

Lemma getSessionToken_login_once_witness :
  getSessionToken scripted login_env (login_state [Rejected offline])
  = (Throw (McpError InternalError "Failed to authenticate with Metabase"),
     mkState Null [("Content-Type", Str "application/json")] all_handlers
             [(login_request login_env, Rejected offline)] [])
  /\
  let st := login_state [Resolved (Obj [("id", Str "s-1")])] in
  fst (invocations scripted login_env 5 st) = repeat (Ok (Str "s-1")) 5
  /\ short (trace (snd (invocations scripted login_env 5 st)))
     = [(POST, "/api/session")].
Proof.
  split.
  - destruct (getSessionToken_login_once scripted login_env
                (login_state [Rejected offline]) eq_refl) as (_ & Hfail & _ & _).
    exact (proj1 (Hfail offline [] eq_refl)).
  - intros st.
    destruct (getSessionToken_login_once scripted login_env st eq_refl)
      as (_ & _ & Hok & _).
    destruct (Hok (Obj [("id", Str "s-1")]) (Str "s-1") [] eq_refl eq_refl eq_refl)
      as (_ & _ & Hn).
    destruct (Hn 4%nat) as [_ Hinv]. rewrite Hinv. split; reflexivity.
Defined.

Lemma read_resource_by_uri_witness :
  ReadResourceHandler scripted show key_env "metabase://widget/5" (key_state [])
  = (Throw (McpError InvalidRequest "Invalid URI format: metabase://widget/5"),
     key_state [])
  /\
  ReadResourceHandler scripted show key_env "metabase://dashboard/42"
    (key_state [Resolved (Num 7)])
  = (Ok (mkRead [mkContent "metabase://dashboard/42" "application/json" "7"]),
     mkState (Str "api_key_used") (headers (key_state [])) all_handlers
             [(mkRequest GET "/api/dashboard/42" Undefined, Resolved (Num 7))] []).
Proof.
  split.
  - refine (proj1 (proj1 (read_resource_by_uri scripted show key_env
                            (key_state []) (key_state [])
                            "metabase://widget/5" eq_refl) _)).
    intros kind id Hk _ _.
    destruct Hk as [<-|[<-|[<-|[]]]]; discriminate.
  - exact (proj2 (read_resource_by_uri scripted show key_env
                    (key_state [Resolved (Num 7)]) (key_state [Resolved (Num 7)])
                    "metabase://dashboard/42" eq_refl)
             "dashboard" "42" (Resolved (Num 7)) []
             (or_introl eq_refl) ltac:(discriminate) eq_refl eq_refl eq_refl).
Defined.

Lemma execute_query_dialects_witness :
  (let st := key_state [Resolved mongo_db] in
   let run := CallToolHandler scripted show key_env "execute_query"
                (Some [("database_id", Num 4); ("query", Str limit_query)]) st in
   fst run = Throw (McpError InvalidParams
                      "Collection name is required for MongoDB queries")
   /\ short (trace (snd run)) = [(GET, "/api/database/4")])
  /\
  (let st := key_state [Resolved mongo_db; Resolved (Obj [])] in
   let run := CallToolHandler scripted show key_env "execute_query"
                (Some events_args) st in
   fst run = Ok (text_reply "{...}")
   /\ short (trace (snd run)) = [(GET, "/api/database/4"); (POST, "/api/dataset")]).
Proof.
  split.
  - intros st run.
    pose proof (execute_query_dialects scripted show key_env st st
                  (Some [("database_id", Num 4); ("query", Str limit_query)])
                  eq_refl eq_refl eq_refl) as H.
    destruct (proj1 (proj2 H) mongo_db (Str "mongo") [] eq_refl eq_refl)
      as (H1 & _ & _).
    destruct (H1 eq_refl eq_refl) as [Hrun _].
    unfold run. rewrite Hrun. split; reflexivity.
  - intros st run.
    pose proof (execute_query_dialects scripted show key_env st st
                  (Some events_args) eq_refl eq_refl eq_refl) as H.
    destruct (proj1 (proj2 H) mongo_db (Str "mongo") [Resolved (Obj [])]
                eq_refl eq_refl)
      as (_ & H2 & _).
    pose proof (H2 eq_refl eq_refl (Resolved (Obj [])) [] eq_refl) as Hrun.
    unfold run. rewrite Hrun. split; reflexivity.
Defined.


Lemma add_card_appends_placeholder_witness :
  let st := key_state [Resolved (Obj [("dashcards", Arr [Obj placed])]);
                       Resolved (Obj [])] in
  let run := CallToolHandler scripted show key_env "add_card_to_dashboard"
               (Some [("dashboard_id", Num 2); ("card_id", Num 8)]) st in
  fst run = Ok (text_reply "{...}")
  /\ map (fun x => body (fst x)) (trace (snd run))
     = [Undefined;
        Obj [("cards",
              Arr [canonical placed;
                   Obj [("id", Num (-1)); ("card_id", Num 8); ("row", Num 0);
                        ("col", Num 0); ("size_x", Num 4); ("size_y", Num 4)]])]].
Proof.
  intros st run.
  pose proof (add_card_appends_placeholder scripted show key_env st st
                (Some [("dashboard_id", Num 2); ("card_id", Num 8)])
                (Obj [("dashcards", Arr [Obj placed])]) (Arr [Obj placed])
                [placed] [Resolved (Obj [])]
                eq_refl eq_refl eq_refl eq_refl eq_refl eq_refl) as H.
  destruct H as (_ & Hput & _).
  pose proof (Hput (Resolved (Obj [])) [] eq_refl) as Hrun.
  unfold run. rewrite Hrun. split; reflexivity.
Defined.



Lemma tool_failures_reported_in_band_witness :
  (CallToolHandler scripted show key_env "list_dashboards" None
     (key_state [Rejected denied])
   = (Ok (error_reply "Metabase API error: Unauthenticated"),
      mkState (Str "api_key_used") (headers (key_state [])) all_handlers
              [(mkRequest GET "/api/dashboard" Undefined, Rejected denied)] []))
  /\
  (CallToolHandler scripted show key_env "drop_database" None (key_state [])
   = (Ok (error_reply "Unknown tool: drop_database"), key_state [])).
Proof.
  split.
  - pose proof (tool_failures_reported_in_band scripted show key_env
                  "list_dashboards" None
                  (key_state [Rejected denied]) (key_state [Rejected denied])
                  eq_refl) as H.
    destruct H as ((made & Htr & Hrej) & _).
    assert (Hmade : made = [(mkRequest GET "/api/dashboard" Undefined, Rejected denied)]).
    { apply (app_inv_head (trace (key_state [Rejected denied]))).
      rewrite <- Htr. reflexivity. }
    pose proof (Hrej (mkRequest GET "/api/dashboard" Undefined) denied) as Hfst.
    rewrite Hmade in Hfst. specialize (Hfst (or_introl eq_refl)).
    apply injective_projections; [exact Hfst|reflexivity].
  - pose proof (tool_failures_reported_in_band scripted show key_env
                  "drop_database" None (key_state []) (key_state [])
                  eq_refl) as H.
    apply (proj2 (proj2 (proj2 (proj2 (proj2 H))))).
    intros t. destruct t; discriminate.
Defined.

Lemma zero_id_rejected_as_missing_witness :
  exists msg,
    CallToolHandler scripted show key_env "get_database"
      (Some [("database_id", Num 0)]) (key_state [])
    = (Throw (McpError InvalidParams msg), key_state [])
    /\
    CallToolHandler scripted show key_env "get_database" (Some []) (key_state [])
    = (Throw (McpError InvalidParams msg), key_state []).
Proof.
  exact (proj2 (zero_id_rejected_as_missing scripted show key_env)
           get_database "database_id" [("database_id", Num 0)]
           (key_state []) (key_state []) eq_refl (or_introl eq_refl) eq_refl).
Defined.

(** ** Concrete runs of the further properties *)

Lemma credential_never_replaced_witness :
  server_of (snd (CallToolHandler scripted show login_env "list_dashboards" None
                    (stored_state [Rejected denied])))
  = server_of (stored_state [Rejected denied]).
Proof.
  exact (proj1 (proj2 (credential_never_replaced scripted show login_env)
                  (stored_state [Rejected denied]) (or_intror eq_refl))
           "list_dashboards" None).
Defined.

Lemma ready_handlers_never_log_in_witness :
  exists made,
    trace (snd (ReadResourceHandler scripted show key_env
                  "metabase://card/5" (key_state [Resolved (Num 1)])))
    = trace (key_state [Resolved (Num 1)]) ++ made
    /\ Forall (fun x => read_request (fst x)) made
    /\ length made <= 1.
Proof.
  exact (proj1 (proj2 (ready_handlers_never_log_in scripted show key_env
                         (key_state [Resolved (Num 1)]) (or_introl eq_refl)))
           "metabase://card/5").
Defined.

Lemma rejected_login_stops_every_handler_witness :
  CallToolHandler scripted show login_env "list_dashboards" None
    (login_state [Rejected offline])
  = (Throw (McpError InternalError "Failed to authenticate with Metabase"),
     mkState Null [("Content-Type", Str "application/json")] all_handlers
             [(login_request login_env, Rejected offline)] []).
Proof.
  exact (proj1 (rejected_login_stops_every_handler scripted show login_env
                  (login_state [Rejected offline]) offline []
                  eq_refl eq_refl eq_refl)
           "list_dashboards" None).
Defined.

Lemma granted_login_precedes_handler_witness :
  CallToolHandler scripted show login_env "list_dashboards" None
    (login_state [Resolved granted_login; Resolved (Arr [])])
  = CallToolHandler scripted show login_env "list_dashboards" None
      (stored_state [Resolved (Arr [])]).
Proof.
  exact (proj1 (granted_login_precedes_handler scripted show login_env
                  (login_state [Resolved granted_login; Resolved (Arr [])])
                  granted_login (Str "s-1") [Resolved (Arr [])]
                  eq_refl eq_refl eq_refl eq_refl eq_refl)
           "list_dashboards" None).
Defined.

Lemma login_without_token_is_not_cached_witness :
  let st := login_state [Resolved (Obj []); Resolved granted_login] in
  fst (getSessionToken scripted login_env st) = Ok Undefined
  /\ short (trace (snd (getSessionToken scripted login_env
                          (snd (getSessionToken scripted login_env st)))))
     = [(POST, "/api/session"); (POST, "/api/session")].
Proof.
  intros st.
  destruct (login_without_token_is_not_cached scripted login_env st
              (Obj []) Undefined [Resolved granted_login]
              eq_refl eq_refl eq_refl eq_refl) as [Hrun Hnext].
  rewrite Hrun. split; [reflexivity|]. cbn [snd].
  rewrite (Hnext (Resolved granted_login) [] eq_refl). reflexivity.
Defined.

Lemma list_resources_descriptors_witness :
  fst (ListResourcesHandler scripted key_env
         (key_state [Resolved (Arr (map Obj two_dashboards))]))
  = Ok [mkResource "metabase://dashboard/42" "application/json" (Str "Sales")
                   "Metabase dashboard: Sales";
        mkResource "metabase://dashboard/7" "application/json" (Str "Ops")
                   "Metabase dashboard: Ops"].
Proof.
  assert (Hprint : Forall (fun dc => prints_exactly (get "id" dc) = true
                                     /\ prints_exactly (get "name" dc) = true)
                          two_dashboards).
  { repeat constructor. }
  rewrite (proj1 (list_resources_descriptors scripted key_env
                    (key_state [Resolved (Arr (map Obj two_dashboards))])
                    (key_state [Resolved (Arr (map Obj two_dashboards))])
                    two_dashboards [] eq_refl eq_refl Hprint)).
  reflexivity.
Defined.

Lemma list_resources_failure_is_opaque_witness :
  ListResourcesHandler scripted key_env (key_state [Rejected denied])
  = (Throw (McpError InternalError "Failed to list Metabase resources"),
     mkState (Str "api_key_used") (headers (key_state [])) all_handlers
             [(mkRequest GET "/api/dashboard" Undefined, Rejected denied)] []).
Proof.
  exact (proj1 (proj2 (list_resources_failure_is_opaque scripted key_env
                         (key_state [Rejected denied]) (key_state [Rejected denied])
                         (Rejected denied) [] eq_refl eq_refl))
           denied eq_refl).
Defined.

Lemma listed_dashboard_is_readable_witness :
  exists r,
    dashboard_resource (Obj [("id", Num 42); ("name", Str "Sales")]) = Ok r
    /\ ReadResourceHandler scripted show key_env (res_uri r)
         (key_state [Resolved (Num 1)])
       = (Ok (mkRead [mkContent (res_uri r) "application/json" "1"]),
          mkState (Str "api_key_used") (headers (key_state [])) all_handlers
                  [(mkRequest GET "/api/dashboard/42" Undefined,
                    Resolved (Num 1))] []).
Proof.
  destruct (listed_dashboard_is_readable scripted show key_env 42
              [("id", Num 42); ("name", Str "Sales")]
              (key_state [Resolved (Num 1)]) (key_state [Resolved (Num 1)])
              eq_refl eq_refl eq_refl eq_refl) as (r & Hr & Hread & _).
  exists r. split; [exact Hr|].
  exact (Hread ltac:(lia) (Resolved (Num 1)) [] eq_refl).
Defined.

Lemma missing_required_argument_rejected_witness :
  exists msg,
    tool_body scripted show key_env "execute_query"
      (Some [("database_id", Num 4); ("query", Str EmptyString)]) (key_state [])
    = (Throw (McpError InvalidParams msg), key_state []).
Proof.
  exact (missing_required_argument_rejected scripted show key_env
           execute_query "query"
           (Some [("database_id", Num 4); ("query", Str EmptyString)])
           (key_state []) (or_intror (or_introl eq_refl)) eq_refl).
Defined.

Lemma validation_precedes_calls_witness :
  snd (tool_body scripted show key_env "update_card"
         (Some [("card_id", Num 9)]) (key_state []))
  = key_state [].
Proof.
  destruct (validation_precedes_calls scripted show key_env "update_card"
              (Some [("card_id", Num 9)]) (key_state [])
              InvalidParams "No fields provided for update_card" eq_refl)
    as [_ [H|(H & _)]]; [exact H|discriminate H].
Defined.

Lemma undeclared_arguments_ignored_witness :
  run_tool scripted show key_env add_card_to_dashboard
    (Some (remove "dashboard_tab_id"
             [("dashboard_id", Num 2); ("card_id", Num 8);
              ("dashboard_tab_id", Num 3)]))
  = run_tool scripted show key_env add_card_to_dashboard
      (Some [("dashboard_id", Num 2); ("card_id", Num 8);
             ("dashboard_tab_id", Num 3)]).
Proof.
  apply undeclared_arguments_ignored; try discriminate.
  right. split; reflexivity.
Defined.

Lemma collection_ignored_unless_mongo_witness :
  let a := [("database_id", Num 4); ("query", Str "select 1");
            ("collection", Str "events")] in
  let st := key_state [Resolved metadata_body; Resolved (Num 1)] in
  tool_body scripted show key_env "execute_query"
    (Some (remove "collection" a)) st
  = tool_body scripted show key_env "execute_query" (Some a) st.
Proof.
  intros a st. apply collection_ignored_unless_mongo.
  intros d w1 H. injection H as <- _. discriminate.
Defined.



Lemma dashboard_only_card_is_embedded_witness :
  let st := key_state [Resolved (Obj []); Resolved (Obj [])] in
  short (trace (snd (tool_body scripted show key_env
                       "create_dashboard_only_card" (Some virtual_args) st)))
  = [(GET, "/api/dashboard/2"); (PUT, "/api/dashboard/2/cards")].
Proof.
  intros st.
  destruct (dashboard_only_card_is_embedded scripted show key_env st
              virtual_args (Obj []) Undefined [] [Resolved (Obj [])]
              eq_refl eq_refl eq_refl eq_refl eq_refl eq_refl eq_refl eq_refl)
    as (Hput & _).
  rewrite (Hput (Resolved (Obj [])) [] eq_refl). reflexivity.
Defined.


Lemma reshape_dashcard_is_stable_witness :
  reshape_dashcard (canonical placed) = Ok (canonical placed).
Proof.
  exact (proj1 (reshape_dashcard_is_stable (Obj placed) (canonical placed)
                  eq_refl)).
Defined.

Lemma null_body_escapes_as_type_error_witness :
  fst (tool_body scripted show key_env "create_card" (Some new_card_args)
         (key_state [Resolved Null]))
  = Throw TypeError.
Proof.
  destruct (null_body_escapes_as_type_error scripted show key_env create_card
              (Some new_card_args) (key_state [Resolved Null]) eq_refl
              (fun rq => ex_intro _ [] eq_refl))
    as [[H _]|(msg & H)]; [exact H|discriminate H].
Defined.

Lemma startup_selects_mode_witness :
  exists st,
    startup key_env ([] : Script) = Ok st
    /\ sessionToken st = Str "api_key_used"
    /\ get "X-API-Key" (headers st) = Str "mb_key".
Proof.
  destruct (startup_selects_mode scripted key_env ([] : Script) eq_refl)
    as (st & Hs & _ & _ & _ & _ & Hkey & _).
  destruct (Hkey eq_refl) as (Ht & Hh & _).
  exists st. split; [exact Hs|]. split; [exact Ht|exact Hh].
Defined.


Lemma falsy_optionals_take_defaults_witness :
  short (trace (snd (tool_body scripted show key_env "list_cards"
                       (Some [("f", Str EmptyString)])
                       (key_state [Resolved (Arr [])]))))
  = [(GET, "/api/card?f=all")].
Proof.
  rewrite (proj1 (falsy_optionals_take_defaults scripted show key_env
                    (key_state [Resolved (Arr [])])
                    (Some [("f", Str EmptyString)]) (Resolved (Arr [])) [])
             eq_refl).
  reflexivity.
Defined.

Lemma hard_delete_is_decided_by_truthiness_witness :
  short (trace (snd (tool_body scripted show key_env "delete_card"
                       (Some [("card_id", Num 9); ("hard_delete", Str "false")])
                       (key_state [Resolved (Str EmptyString)]))))
  = [(DELETE, "/api/card/9")].
Proof.
  change "delete_card" with (tool_name delete_card).
  rewrite (proj1 (hard_delete_is_decided_by_truthiness scripted show key_env
                    delete_card "card_id" "/api/card/" "Card"
                    (key_state [Resolved (Str EmptyString)])
                    (Some [("card_id", Num 9); ("hard_delete", Str "false")])
                    (Resolved (Str EmptyString)) [] eq_refl eq_refl)
             eq_refl eq_refl).
  reflexivity.
Defined.

Lemma tool_reply_shape_witness :
  exists s,
    content (error_reply "Metabase API error: Unauthenticated")
    = [mkText "text" s].
Proof.
  exact (proj1 (tool_reply_shape scripted show key_env "list_dashboards" None
                  (key_state [Rejected denied])
                  (error_reply "Metabase API error: Unauthenticated") eq_refl)).
Defined.

Lemma malformed_dashcards_write_nothing_witness :
  let st := key_state [Resolved (Obj [("dashcards", Arr [Null])])] in
  calls PUT (trace (snd (tool_body scripted show key_env "add_card_to_dashboard"
                           (Some [("dashboard_id", Num 2); ("card_id", Num 8)])
                           st)))
  = 0.
Proof.
  intros st.
  assert (Hbad : forall l, Arr [Null] = Arr l -> In Null l \/ In Undefined l).
  { intros l H. injection H as <-. left. left. reflexivity. }
  exact (proj1 (malformed_dashcards_write_nothing scripted show key_env
                  add_card_to_dashboard
                  [("dashboard_id", Num 2); ("card_id", Num 8)] st
                  (Obj [("dashcards", Arr [Null])]) (Arr [Null]) []
                  eq_refl eq_refl eq_refl eq_refl Hbad)).
Defined.
